(** * Producer/consumer core of Assignment_1: a shallow embedding

    The Python sources under [Assignment_1/src] are embedded module by
    module, keeping the names of the classes, methods and fields:

    - [exceptions.py], [config.py]: exception classes and dataclasses;
    - [custom_queue.py]: [ThreadSafeQueue];
    - [producer.py], [consumer.py]: the two workers;
    - [coordinator.py]: the [Coordinator].

    Python [int] is [Z], Python [float] is the kernel's binary64 [float],
    [Optional[x]] is [option x], [list] and [deque] are [list].  A Python
    value of type [Any] is a reference; it is modelled by its identity, so
    that [is] is equality of references. *)

From Stdlib Require Import String ZArith List Bool Lia PrimFloat.
Import ListNotations.

Local Open Scope Z_scope.

(** ** exceptions.py *)

Inductive exn : Set :=
| QueueEmpty
| QueueFull
| QueueTimeout
| ProducerError
| ConsumerError
| CoordinatorError
| ValueError
| IndexError
| RuntimeError.

(** [isinstance(e, QueueEmpty)], as tested by [except QueueEmpty]. *)
Definition is_QueueEmpty (e : exn) : bool :=
  match e with QueueEmpty => true | _ => false end.

(** A reference to a Python object ([Any]); [is_] is Python's [is]. *)
Definition object : Set := nat.
Definition is_ (a b : object) : bool := Nat.eqb a b.

(** [time.time()] as seen by one activation of a method: [clock k] is the
    value of the [k]-th call made by that activation. *)
Definition Clock : Set := nat -> float.

(** Truth value of a float in a condition: every float but [0.0] and
    [-0.0] is true. *)
Definition truthy (x : float) : bool := negb (PrimFloat.eqb x 0%float).

(** How a call that may block ends, seen from its caller. *)
Inductive completion (A : Type) : Type :=
| Returned (a : A)
| Raised (e : exn)
| Hung.
    (** the call never returns *)
Arguments Returned {A} a.
Arguments Raised {A} e.
Arguments Hung {A}.

(** A [threading.Thread] seen from the thread that joins it:
    [join_then_is_alive timeout] is the value of [is_alive()] once
    [join(timeout)] has returned, [None] when that [join] never returns. *)
Record Thread : Set := {
  join_then_is_alive : option float -> option bool
}.

(** ** config.py *)

Module ProducerConfig.
Record t : Set := {
  name : string;
  put_timeout : option float;
  delay_between_items : float;
  stop_on_error : bool
}.
End ProducerConfig.

Module ConsumerConfig.
Record t : Set := {
  name : string;
  get_timeout : option float;
  delay_between_items : float;
  stop_on_error : bool
}.
End ConsumerConfig.

Module CoordinatorConfig.
Record t : Set := {
  name : string;
  join_timeout : option float;
  sentinel_value : object;
  shutdown_grace_period : float
}.
End CoordinatorConfig.

Module SystemMetrics.
Record t : Set := {
  items_produced : Z;
  items_consumed : Z;
  producer_errors : Z;
  consumer_errors : Z;
  start_time : float;
  end_time : float;
  execution_duration : float
}.

(** The field defaults of the dataclass. *)
Definition __init__ : t :=
  {| items_produced := 0; items_consumed := 0;
     producer_errors := 0; consumer_errors := 0;
     start_time := 0%float; end_time := 0%float;
     execution_duration := 0%float |}.

Definition set_execution_duration (d : float) (self : t) : t :=
  {| items_produced := items_produced self;
     items_consumed := items_consumed self;
     producer_errors := producer_errors self;
     consumer_errors := consumer_errors self;
     start_time := start_time self;
     end_time := end_time self;
     execution_duration := d |}.

Definition set_start_time (x : float) (self : t) : t :=
  {| items_produced := items_produced self;
     items_consumed := items_consumed self;
     producer_errors := producer_errors self;
     consumer_errors := consumer_errors self;
     start_time := x;
     end_time := end_time self;
     execution_duration := execution_duration self |}.

Definition set_end_time (x : float) (self : t) : t :=
  {| items_produced := items_produced self;
     items_consumed := items_consumed self;
     producer_errors := producer_errors self;
     consumer_errors := consumer_errors self;
     start_time := start_time self;
     end_time := x;
     execution_duration := execution_duration self |}.

Definition calculate_duration (self : t) : t :=
  if truthy (start_time self) && truthy (end_time self)
  then set_execution_duration
         (PrimFloat.sub (end_time self) (start_time self)) self
  else self.
End SystemMetrics.

(** ** custom_queue.py *)

Module custom_queue.

(** The lock and the two conditions carry no data of their own; what
    they do is the shape of [outcome] below: a method body runs with the
    lock held from its entry to its return, its raise, or its call of
    [wait]. *)
Record ThreadSafeQueue (T : Type) : Type := {
  _queue : list T;
  _maxsize : Z
}.
Arguments _queue {T} _.
Arguments _maxsize {T} _.

Inductive condition : Set := not_empty | not_full.

(** How one activation of [put] or [get] leaves the critical section. *)
Inductive outcome (A : Type) : Type :=
| Return (a : A)
    (** the method returns [a] *)
| Raise (e : exn)
    (** the method raises [e] *)
| Wait (cv : condition) (endtime : option float).
    (** the thread is suspended in [cv.wait(...)], the lock released;
        once woken it holds the lock again and re-tests the loop
        condition.  [endtime] is the local variable of the timed loop,
        [None] in the loop without timeout. *)
Arguments Return {A} a.
Arguments Raise {A} e.
Arguments Wait {A} cv endtime.

Section Queue.
Context {T : Type}.

Definition __init__ (maxsize : Z) : ThreadSafeQueue T :=
  {| _queue := []; _maxsize := maxsize |}.

Definition _qsize (self : ThreadSafeQueue T) : Z :=
  Z.of_nat (length (_queue self)).

Definition qsize (self : ThreadSafeQueue T) : Z := _qsize self.

Definition empty (self : ThreadSafeQueue T) : bool :=
  _qsize self =? 0.

Definition full (self : ThreadSafeQueue T) : bool :=
  (0 <? _maxsize self) && (_maxsize self <=? _qsize self).

(** Lines 114-118: [self._queue.append(item)], then
    [self._not_empty.notify()]. *)
Definition put_append (item : T) (self : ThreadSafeQueue T)
  : outcome unit * ThreadSafeQueue T :=
  (Return tt,
   {| _queue := _queue self ++ [item]; _maxsize := _maxsize self |}).

(** Lines 99-100, from the loop test. *)
Definition put_wait_forever (item : T) (self : ThreadSafeQueue T)
  : outcome unit * ThreadSafeQueue T :=
  if _qsize self >=? _maxsize self
  then (Wait not_full None, self)
  else put_append item self.

(** Lines 106-112, from the loop test; [now] is [time.time()] of
    line 107. *)
Definition put_wait_until (endtime now : float) (item : T)
    (self : ThreadSafeQueue T) : outcome unit * ThreadSafeQueue T :=
  if _qsize self >=? _maxsize self
  then
    let remaining := PrimFloat.sub endtime now in
    if PrimFloat.leb remaining 0%float
    then (Raise QueueFull, self)
    else (Wait not_full (Some endtime), self)
  else put_append item self.

Definition put (item : T) (block : bool) (timeout : option float)
    (clock : Clock) (self : ThreadSafeQueue T)
  : outcome unit * ThreadSafeQueue T :=
  if _maxsize self >? 0
  then
    if negb block
    then
      if _qsize self >=? _maxsize self
      then (Raise QueueFull, self)
      else put_append item self
    else
      match timeout with
      | None => put_wait_forever item self
      | Some t =>
          if PrimFloat.ltb t 0%float
          then (Raise ValueError, self)
          else
            let endtime := PrimFloat.add (clock 0%nat) t in
            put_wait_until endtime (clock 1%nat) item self
      end
  else put_append item self.

(** A thread suspended by [put] is woken (notified, timed out, or
    spuriously): it resumes at the test of the loop it waits in. *)
Definition put_resume (item : T) (endtime : option float)
    (clock : Clock) (self : ThreadSafeQueue T)
  : outcome unit * ThreadSafeQueue T :=
  match endtime with
  | None => put_wait_forever item self
  | Some e => put_wait_until e (clock 0%nat) item self
  end.

(** Lines 171-177: [self._queue.popleft()], then
    [self._not_full.notify()]; [popleft] of an empty deque raises
    [IndexError], which no caller of [get_popleft] reaches. *)
Definition get_popleft (self : ThreadSafeQueue T)
  : outcome T * ThreadSafeQueue T :=
  match _queue self with
  | item :: rest =>
      (Return item, {| _queue := rest; _maxsize := _maxsize self |})
  | [] => (Raise IndexError, self)
  end.

(** Lines 158-159, from the loop test. *)
Definition get_wait_forever (self : ThreadSafeQueue T)
  : outcome T * ThreadSafeQueue T :=
  if _qsize self =? 0
  then (Wait not_empty None, self)
  else get_popleft self.

(** Lines 165-169, from the loop test. *)
Definition get_wait_until (endtime now : float)
    (self : ThreadSafeQueue T) : outcome T * ThreadSafeQueue T :=
  if _qsize self =? 0
  then
    let remaining := PrimFloat.sub endtime now in
    if PrimFloat.leb remaining 0%float
    then (Raise QueueEmpty, self)
    else (Wait not_empty (Some endtime), self)
  else get_popleft self.

Definition get (block : bool) (timeout : option float)
    (clock : Clock) (self : ThreadSafeQueue T)
  : outcome T * ThreadSafeQueue T :=
  if negb block
  then
    if _qsize self =? 0
    then (Raise QueueEmpty, self)
    else get_popleft self
  else
    match timeout with
    | None => get_wait_forever self
    | Some t =>
        if PrimFloat.ltb t 0%float
        then (Raise ValueError, self)
        else
          let endtime := PrimFloat.add (clock 0%nat) t in
          get_wait_until endtime (clock 1%nat) self
    end.

Definition get_resume (endtime : option float) (clock : Clock)
    (self : ThreadSafeQueue T) : outcome T * ThreadSafeQueue T :=
  match endtime with
  | None => get_wait_forever self
  | Some e => get_wait_until e (clock 0%nat) self
  end.

(** *** Concurrent use

    The lock serialises the activations, so a run of the queue under
    any number of threads is a sequence of events, each one the
    critical section of one thread. *)
Inductive event : Type :=
| call_put (item : T) (block : bool) (timeout : option float)
           (clock : Clock)
| wake_put (item : T) (endtime : option float) (clock : Clock)
| call_get (block : bool) (timeout : option float) (clock : Clock)
| wake_get (endtime : option float) (clock : Clock).

(** What an observer of the queue has seen: the items whose [put]
    returned and the items returned by [get], each in order. *)
Record history : Type := {
  inserted : list T;
  removed : list T;
  queue : ThreadSafeQueue T
}.

Definition after_put (item : T) (h : history)
    (r : outcome unit * ThreadSafeQueue T) : history :=
  match fst r with
  | Return _ =>
      {| inserted := inserted h ++ [item];
         removed := removed h;
         queue := snd r |}
  | _ => {| inserted := inserted h; removed := removed h;
            queue := snd r |}
  end.

Definition after_get (h : history)
    (r : outcome T * ThreadSafeQueue T) : history :=
  match fst r with
  | Return item =>
      {| inserted := inserted h;
         removed := removed h ++ [item];
         queue := snd r |}
  | _ => {| inserted := inserted h; removed := removed h;
            queue := snd r |}
  end.

Definition step (h : history) (ev : event) : history :=
  match ev with
  | call_put item block timeout clock =>
      after_put item h (put item block timeout clock (queue h))
  | wake_put item endtime clock =>
      after_put item h (put_resume item endtime clock (queue h))
  | call_get block timeout clock =>
      after_get h (get block timeout clock (queue h))
  | wake_get endtime clock =>
      after_get h (get_resume endtime clock (queue h))
  end.

Definition fresh (maxsize : Z) : history :=
  {| inserted := []; removed := []; queue := __init__ maxsize |}.

Definition replay (maxsize : Z) (evs : list event) : history :=
  fold_left step evs (fresh maxsize).

(** One event either changes nothing, or is a [put] that returned, or
    is a [get] that returned. *)
Inductive effect (h : history) : history -> Prop :=
| effect_none : effect h h
| effect_put item :
    (0 < _maxsize (queue h) -> _qsize (queue h) < _maxsize (queue h)) ->
    effect h {| inserted := inserted h ++ [item];
                removed := removed h;
                queue := snd (put_append item (queue h)) |}
| effect_get item rest :
    _queue (queue h) = item :: rest ->
    effect h {| inserted := inserted h;
                removed := removed h ++ [item];
                queue := {| _queue := rest;
                            _maxsize := _maxsize (queue h) |} |}.

(** What is inserted is what was removed followed by what is still in the
    queue, head first. *)
Definition fifo (h : history) : Prop :=
  inserted h = removed h ++ _queue (queue h).

(** The capacity is [K] and the size is within it. *)
Definition bounded (K : Z) (h : history) : Prop :=
  _maxsize (queue h) = K /\ 0 <= _qsize (queue h) <= K.

End Queue.
End custom_queue.

(** ** producer.py *)

Module producer.

(** The field [queue] is a reference to a queue shared with other
    threads: what its methods answer is not a function of the producer's
    state and is given by the [World] below. *)
Record Producer : Set := {
  config : ProducerConfig.t;
  source : list object;
  sentinel : object;
  _items_produced : Z;
  _errors_encountered : Z;
  _is_running : bool;
  _thread : option Thread
}.

Definition __init__ (config : ProducerConfig.t) (source : list object)
    (sentinel : object) : Producer :=
  {| config := config; source := source; sentinel := sentinel;
     _items_produced := 0; _errors_encountered := 0;
     _is_running := false; _thread := None |}.

Definition set__is_running (b : bool) (self : Producer) : Producer :=
  {| config := config self; source := source self;
     sentinel := sentinel self;
     _items_produced := _items_produced self;
     _errors_encountered := _errors_encountered self;
     _is_running := b; _thread := _thread self |}.

Definition set__thread (t : option Thread) (self : Producer) : Producer :=
  {| config := config self; source := source self;
     sentinel := sentinel self;
     _items_produced := _items_produced self;
     _errors_encountered := _errors_encountered self;
     _is_running := _is_running self; _thread := t |}.

(** [self._items_produced += 1] *)
Definition incr__items_produced (self : Producer) : Producer :=
  {| config := config self; source := source self;
     sentinel := sentinel self;
     _items_produced := _items_produced self + 1;
     _errors_encountered := _errors_encountered self;
     _is_running := _is_running self; _thread := _thread self |}.

(** [self._errors_encountered += 1] *)
Definition incr__errors_encountered (self : Producer) : Producer :=
  {| config := config self; source := source self;
     sentinel := sentinel self;
     _items_produced := _items_produced self;
     _errors_encountered := _errors_encountered self + 1;
     _is_running := _is_running self; _thread := _thread self |}.

Definition items_produced (self : Producer) : Z := _items_produced self.
Definition errors_encountered (self : Producer) : Z :=
  _errors_encountered self.
Definition is_running (self : Producer) : bool := _is_running self.

(** [start]; [thread] is the [Thread] object created at line 89. *)
Definition start (thread : Thread) (self : Producer)
  : completion unit * Producer :=
  if _is_running self
  then (Raised ProducerError, self)
  else (Returned tt, set__is_running true (set__thread (Some thread) self)).

Definition join (timeout : option float) (self : Producer)
  : completion bool :=
  match _thread self with
  | None => Returned true
  | Some thread =>
      match join_then_is_alive thread timeout with
      | Some alive => let completed := negb alive in Returned completed
      | None => Hung
      end
  end.

Definition stop (self : Producer) : Producer :=
  set__is_running false self.

(** A call of [self.queue.put] as the queue receives it. *)
Inductive call : Set :=
| queue_put (item : object) (block : bool) (timeout : option float).

(** The call made for an item of the source (lines 192-194): blocking,
    under the configured timeout. *)
Definition item_put (cfg : ProducerConfig.t) (item : object) : call :=
  queue_put item true (ProducerConfig.put_timeout cfg).

(** What the rest of the program does to one run of [_run]:
    [stop_requested i] tells whether [stop()] was called on the producer
    between the [i]-th test of the flag and the one before;
    [put_reply k] is how the [k]-th call of [self.queue.put] ends. *)
Record World : Type := {
  stop_requested : nat -> bool;
  put_reply : nat -> completion unit
}.

(** The state threaded through [_run]: the producer and the calls of
    [put] made so far, oldest first. *)
Definition state : Set := (Producer * list call)%type.

(** The handler of [QueueFull] logs and re-raises; any other exception
    passes through. *)
Definition _produce_item (w : World) (item : object) (st : state)
  : completion unit * state :=
  let '(self, log) := st in
  let log' := log ++ [item_put (config self) item] in
  match put_reply w (length log) with
  | Returned _ => (Returned tt, (incr__items_produced self, log'))
  | Raised e => (Raised e, (self, log'))
  | Hung => (Hung, (self, log'))
  end.

Definition _send_sentinel (w : World) (st : state)
  : completion unit * state :=
  let '(self, log) := st in
  let log' := log ++ [queue_put (sentinel self) true None] in
  match put_reply w (length log) with
  | Returned _ => (Returned tt, (self, log'))
  | Raised _ => (Raised ProducerError, (self, log'))
  | Hung => (Hung, (self, log'))
  end.

(** How the [for] loop of [_run] is left. *)
Inductive loop_exit : Set :=
| exhausted
    (** the source has no more items *)
| stopped
    (** [break]: the flag was found cleared *)
| aborted (e : exn)
    (** [raise] under [stop_on_error] *)
| blocked.
    (** a call of [put] never returned *)

(** Lines 135-161; [i] counts the iterations.  [time.sleep] changes
    nothing here. *)
Fixpoint _run_for (w : World) (i : nat) (items : list object)
    (self : Producer) (log : list call) : loop_exit * state :=
  match items with
  | [] => (exhausted, (self, log))
  | item :: rest =>
      let self := if stop_requested w i then stop self else self in
      if negb (_is_running self)
      then (stopped, (self, log))
      else
        match _produce_item w item (self, log) with
        | (Returned _, (self, log)) => _run_for w (S i) rest self log
        | (Raised _, (self, log)) =>
            let self := incr__errors_encountered self in
            if ProducerConfig.stop_on_error (config self)
            then (aborted ProducerError, (self, log))
            else _run_for w (S i) rest self log
        | (Hung, st) => (blocked, st)
        end
  end.

(** [_run]: the loop, the sentinel, and [finally]. *)
Definition _run (w : World) (self : Producer) : completion unit * state :=
  match _run_for w 0 (source self) self [] with
  | (exhausted, st) | (stopped, st) =>
      match _send_sentinel w st with
      | (Returned _, (self, log)) =>
          (Returned tt, (set__is_running false self, log))
      | (Raised e, (self, log)) =>
          (Raised e, (set__is_running false self, log))
      | (Hung, st) => (Hung, st)
      end
  | (aborted e, (self, log)) =>
      (Raised e, (set__is_running false self, log))
  | (blocked, st) => (Hung, st)
  end.

End producer.

(** ** consumer.py *)

Module consumer.

(** [destination] is a [List[Any]]; [queue] is a shared reference whose
    answers are given by the [World] below. *)
Record Consumer : Set := {
  config : ConsumerConfig.t;
  destination : list object;
  sentinel : object;
  _items_consumed : Z;
  _errors_encountered : Z;
  _is_running : bool;
  _thread : option Thread
}.

Definition __init__ (config : ConsumerConfig.t)
    (destination : list object) (sentinel : object) : Consumer :=
  {| config := config; destination := destination; sentinel := sentinel;
     _items_consumed := 0; _errors_encountered := 0;
     _is_running := false; _thread := None |}.

Definition set__is_running (b : bool) (self : Consumer) : Consumer :=
  {| config := config self; destination := destination self;
     sentinel := sentinel self;
     _items_consumed := _items_consumed self;
     _errors_encountered := _errors_encountered self;
     _is_running := b; _thread := _thread self |}.

Definition set__thread (t : option Thread) (self : Consumer) : Consumer :=
  {| config := config self; destination := destination self;
     sentinel := sentinel self;
     _items_consumed := _items_consumed self;
     _errors_encountered := _errors_encountered self;
     _is_running := _is_running self; _thread := t |}.

(** [self._errors_encountered += 1] *)
Definition incr__errors_encountered (self : Consumer) : Consumer :=
  {| config := config self; destination := destination self;
     sentinel := sentinel self;
     _items_consumed := _items_consumed self;
     _errors_encountered := _errors_encountered self + 1;
     _is_running := _is_running self; _thread := _thread self |}.

Definition items_consumed (self : Consumer) : Z := _items_consumed self.
Definition errors_encountered (self : Consumer) : Z :=
  _errors_encountered self.
Definition is_running (self : Consumer) : bool := _is_running self.

(** [start]; [thread] is the [Thread] object created at line 89. *)
Definition start (thread : Thread) (self : Consumer)
  : completion unit * Consumer :=
  if _is_running self
  then (Raised ConsumerError, self)
  else (Returned tt, set__is_running true (set__thread (Some thread) self)).

Definition join (timeout : option float) (self : Consumer)
  : completion bool :=
  match _thread self with
  | None => Returned true
  | Some thread =>
      match join_then_is_alive thread timeout with
      | Some alive => let completed := negb alive in Returned completed
      | None => Hung
      end
  end.

Definition stop (self : Consumer) : Consumer :=
  set__is_running false self.

(** [stop_requested i] is as for the producer; [get_reply i] is how the
    call of [self.queue.get(block=True, timeout=get_timeout)] of the
    [i]-th iteration ends. *)
Record World : Type := {
  stop_requested : nat -> bool;
  get_reply : nat -> completion object
}.

(** Lines 204-218: [self.destination.append(item)] on a list, then
    [self._items_consumed += 1].  The handler of lines 220-225
    re-raises what the body raised. *)
Definition _consume_item (item : object) (self : Consumer)
  : completion unit * Consumer :=
  (Returned tt,
   {| config := config self;
      destination := destination self ++ [item];
      sentinel := sentinel self;
      _items_consumed := _items_consumed self + 1;
      _errors_encountered := _errors_encountered self;
      _is_running := _is_running self; _thread := _thread self |}).

(** How one pass through the body of the [while] loop ends. *)
Inductive control : Set :=
| next
    (** the end of the body is reached (after the optional sleep) *)
| continue_
| break_
| raise_ (e : exn)
| hang.

(** Lines 160-173: the handler [except Exception]. *)
Definition on_exception (self : Consumer) : control * Consumer :=
  let self := incr__errors_encountered self in
  if ConsumerConfig.stop_on_error (config self)
  then (raise_ ConsumerError, self)
  else (next, self).

(** Lines 135-177: the body of the [while] loop, at iteration [i]. *)
Definition _run_body (w : World) (i : nat) (self : Consumer)
  : control * Consumer :=
  match get_reply w i with
  | Returned item =>
      if is_ item (sentinel self)
      then (break_, self)
      else
        match _consume_item item self with
        | (Returned _, self) => (next, self)
        | (Raised e, self) =>
            if is_QueueEmpty e then (continue_, self)
            else on_exception self
        | (Hung, self) => (hang, self)
        end
  | Raised e =>
      if is_QueueEmpty e then (continue_, self) else on_exception self
  | Hung => (hang, self)
  end.

(** Lines 134-177: the [while] loop, from its test at iteration [i];
    [None] when more than [fuel] iterations are needed. *)
Fixpoint _run_while (w : World) (fuel i : nat) (self : Consumer)
  : option (completion unit * Consumer) :=
  let self := if stop_requested w i then stop self else self in
  if negb (_is_running self)
  then Some (Returned tt, self)
  else
    match fuel with
    | O => None
    | S fuel =>
        match _run_body w i self with
        | (next, self) | (continue_, self) =>
            _run_while w fuel (S i) self
        | (break_, self) => Some (Returned tt, self)
        | (raise_ e, self) => Some (Raised e, self)
        | (hang, self) => Some (Hung, self)
        end
    end.

(** [_run]: the loop and [finally]. *)
Definition _run (w : World) (fuel : nat) (self : Consumer)
  : option (completion unit * Consumer) :=
  match _run_while w fuel 0 self with
  | Some (Hung, self) => Some (Hung, self)
  | Some (r, self) => Some (r, set__is_running false self)
  | None => None
  end.

End consumer.

(** ** coordinator.py *)

Module coordinator.

Record Coordinator : Set := {
  config : CoordinatorConfig.t;
  producers : list producer.Producer;
  consumers : list consumer.Consumer;
  metrics : SystemMetrics.t
}.

Definition __init__ (config : CoordinatorConfig.t)
    (producers : list producer.Producer)
    (consumers : list consumer.Consumer) : Coordinator :=
  {| config := config; producers := producers; consumers := consumers;
     metrics := SystemMetrics.__init__ |}.

Definition set_producers (ps : list producer.Producer)
    (self : Coordinator) : Coordinator :=
  {| config := config self; producers := ps;
     consumers := consumers self; metrics := metrics self |}.

Definition set_consumers (cs : list consumer.Consumer)
    (self : Coordinator) : Coordinator :=
  {| config := config self; producers := producers self;
     consumers := cs; metrics := metrics self |}.

Definition set_metrics (m : SystemMetrics.t) (self : Coordinator)
  : Coordinator :=
  {| config := config self; producers := producers self;
     consumers := consumers self; metrics := m |}.

(** The builtin [sum] over a list of [int]. *)
Definition sum (l : list Z) : Z := fold_left Z.add l 0.

(** [not l] for a list [l]. *)
Definition is_empty {A : Type} (l : list A) : bool :=
  match l with [] => true | _ :: _ => false end.

Definition add_producer (p : producer.Producer) (self : Coordinator)
  : completion unit * Coordinator :=
  if existsb producer.is_running (producers self)
  then (Raised CoordinatorError, self)
  else (Returned tt, set_producers (producers self ++ [p]) self).

Definition add_consumer (c : consumer.Consumer) (self : Coordinator)
  : completion unit * Coordinator :=
  if existsb consumer.is_running (consumers self)
  then (Raised CoordinatorError, self)
  else (Returned tt, set_consumers (consumers self ++ [c]) self).

(** What lies outside the coordinator during one call of [run]:
    [time 0] and [time 1] are [time.time()] at lines 148 and 165;
    [consumer_thread i] and [producer_thread i] are the [Thread]
    objects that [start] creates for the [i]-th worker of each list;
    [consumers_left] and [producers_left] give the workers as their own
    threads have left them when the joins of [_wait_for_completion] are
    over. *)
Record World : Type := {
  time : Clock;
  consumer_thread : nat -> Thread;
  producer_thread : nat -> Thread;
  consumers_left : list consumer.Consumer -> list consumer.Consumer;
  producers_left : list producer.Producer -> list producer.Producer
}.

(** Lines 151-152. *)
Fixpoint start_consumers (w : World) (i : nat)
    (cs : list consumer.Consumer)
  : completion unit * list consumer.Consumer :=
  match cs with
  | [] => (Returned tt, [])
  | c :: rest =>
      match consumer.start (consumer_thread w i) c with
      | (Returned _, c) =>
          let '(r, rest) := start_consumers w (S i) rest in (r, c :: rest)
      | (r, c) => (r, c :: rest)
      end
  end.

(** Lines 158-159. *)
Fixpoint start_producers (w : World) (i : nat)
    (ps : list producer.Producer)
  : completion unit * list producer.Producer :=
  match ps with
  | [] => (Returned tt, [])
  | p :: rest =>
      match producer.start (producer_thread w i) p with
      | (Returned _, p) =>
          let '(r, rest) := start_producers w (S i) rest in (r, p :: rest)
      | (r, p) => (r, p :: rest)
      end
  end.

(** A loop [for x in l: x.join(timeout=...)]; what a join answers is
    only logged. *)
Fixpoint join_all {A : Type} (join : A -> completion bool) (l : list A)
  : completion unit :=
  match l with
  | [] => Returned tt
  | x :: rest =>
      match join x with
      | Returned _ => join_all join rest
      | Raised e => Raised e
      | Hung => Hung
      end
  end.

Definition _wait_for_completion (w : World) (self : Coordinator)
  : completion unit * Coordinator :=
  let timeout := CoordinatorConfig.join_timeout (config self) in
  match join_all (producer.join timeout) (producers self) with
  | Returned _ =>
      match join_all (consumer.join timeout) (consumers self) with
      | Returned _ =>
          let self :=
            set_consumers (consumers_left w (consumers self))
              (set_producers (producers_left w (producers self)) self) in
          let still_running :=
            (map (fun p => ProducerConfig.name (producer.config p))
               (filter producer.is_running (producers self))
             ++ map (fun c => ConsumerConfig.name (consumer.config c))
                  (filter consumer.is_running (consumers self)))%list in
          if is_empty still_running
          then (Returned tt, self)
          else (Raised CoordinatorError, self)
      | Raised e => (Raised e, self)
      | Hung => (Hung, self)
      end
  | Raised e => (Raised e, self)
  | Hung => (Hung, self)
  end.

Definition _collect_metrics (self : Coordinator) : Coordinator :=
  let m := metrics self in
  set_metrics
    {| SystemMetrics.items_produced :=
         sum (map producer.items_produced (producers self));
       SystemMetrics.items_consumed :=
         sum (map consumer.items_consumed (consumers self));
       SystemMetrics.producer_errors :=
         sum (map producer.errors_encountered (producers self));
       SystemMetrics.consumer_errors :=
         sum (map consumer.errors_encountered (consumers self));
       SystemMetrics.start_time := SystemMetrics.start_time m;
       SystemMetrics.end_time := SystemMetrics.end_time m;
       SystemMetrics.execution_duration :=
         SystemMetrics.execution_duration m |}
    self.

(** [stop] never raises, so the handlers of lines 274 and 280 are not
    entered; the answers of the final joins are dropped. *)
Definition _emergency_shutdown (self : Coordinator)
  : completion unit * Coordinator :=
  let self :=
    set_consumers (map consumer.stop (consumers self))
      (set_producers (map producer.stop (producers self)) self) in
  let timeout := CoordinatorConfig.join_timeout (config self) in
  match join_all (producer.join timeout) (producers self) with
  | Returned _ =>
      (join_all (consumer.join timeout) (consumers self), self)
  | r => (r, self)
  end.

(** Lines 147-176: the body of [try]. *)
Definition run_try (w : World) (self : Coordinator)
  : completion SystemMetrics.t * Coordinator :=
  let self :=
    set_metrics (SystemMetrics.set_start_time (time w 0%nat) (metrics self))
      self in
  match start_consumers w 0 (consumers self) with
  | (Returned _, cs) =>
      let self := set_consumers cs self in
      match start_producers w 0 (producers self) with
      | (Returned _, ps) =>
          let self := set_producers ps self in
          match _wait_for_completion w self with
          | (Returned _, self) =>
              let self :=
                set_metrics
                  (SystemMetrics.set_end_time (time w 1%nat) (metrics self))
                  self in
              let self :=
                set_metrics
                  (SystemMetrics.calculate_duration (metrics self)) self in
              let self := _collect_metrics self in
              (Returned (metrics self), self)
          | (Raised e, self) => (Raised e, self)
          | (Hung, self) => (Hung, self)
          end
      | (Raised e, ps) => (Raised e, set_producers ps self)
      | (Hung, ps) => (Hung, set_producers ps self)
      end
  | (Raised e, cs) => (Raised e, set_consumers cs self)
  | (Hung, cs) => (Hung, set_consumers cs self)
  end.

Definition run (w : World) (self : Coordinator)
  : completion SystemMetrics.t * Coordinator :=
  if existsb producer.is_running (producers self)
     || existsb consumer.is_running (consumers self)
  then (Raised CoordinatorError, self)
  else if is_empty (producers self)
  then (Raised CoordinatorError, self)
  else if is_empty (consumers self)
  then (Raised CoordinatorError, self)
  else
    match run_try w self with
    | (Returned m, self) => (Returned m, self)
    | (Raised _, self) =>
        match _emergency_shutdown self with
        | (Returned _, self) => (Raised CoordinatorError, self)
        | (Raised _, self) => (Raised CoordinatorError, self)
        | (Hung, self) => (Hung, self)
        end
    | (Hung, self) => (Hung, self)
    end.

Definition stop (self : Coordinator) : Coordinator :=
  set_consumers (map consumer.stop (consumers self))
    (set_producers (map producer.stop (producers self)) self).

Definition reset (self : Coordinator) : completion unit * Coordinator :=
  if existsb producer.is_running (producers self)
     || existsb consumer.is_running (consumers self)
  then (Raised CoordinatorError, self)
  else (Returned tt, set_metrics SystemMetrics.__init__ self).

End coordinator.

(** ** Observations used in the statements *)


(** Configurations as [main.py] builds them, and a thread that has
    ended by the time it is joined. *)
Definition demo_producer_config : ProducerConfig.t :=
  {| ProducerConfig.name := "CustomProducer-1";
     ProducerConfig.put_timeout := Some 30%float;
     ProducerConfig.delay_between_items := 0%float;
     ProducerConfig.stop_on_error := true |}.

Definition demo_consumer_config : ConsumerConfig.t :=
  {| ConsumerConfig.name := "CustomConsumer-1";
     ConsumerConfig.get_timeout := Some 30%float;
     ConsumerConfig.delay_between_items := 0%float;
     ConsumerConfig.stop_on_error := true |}.

Definition demo_coordinator_config : CoordinatorConfig.t :=
  {| CoordinatorConfig.name := "CustomQueueCoordinator";
     CoordinatorConfig.join_timeout := Some 60%float;
     CoordinatorConfig.sentinel_value := 0%nat;
     CoordinatorConfig.shutdown_grace_period := 5%float |}.

Definition ended_thread : Thread :=
  {| join_then_is_alive := fun _ => Some false |}.

(** *** A producer that finishes before the consumer starts

    The schedule of the tests that fill a queue and then start a
    consumer on it. *)

(** Nobody asks the producer to stop and every call of [put] returns. *)
Definition calm : producer.World :=
  {| producer.stop_requested := fun _ => false;
     producer.put_reply := fun _ => Returned tt |}.



(** * Properties *)

(** ** The queue *)

Section QueueFacts.
Import custom_queue.
Context {T : Type}.
Implicit Types (self : ThreadSafeQueue T) (h : @history T).

Ltac tests :=
  repeat match goal with
  | |- context [?a >? ?b] => destruct (Z.gtb_spec a b)
  | |- context [?a >=? ?b] => destruct (Z.geb_spec a b)
  | |- context [?a =? ?b] => destruct (Z.eqb_spec a b)
  | |- context [PrimFloat.ltb ?a ?b] => destruct (PrimFloat.ltb a b)
  | |- context [PrimFloat.leb ?a ?b] => destruct (PrimFloat.leb a b)
  end.

Lemma _qsize_nonneg self : 0 <= _qsize self.
Proof. unfold _qsize. lia. Qed.

Lemma _qsize_append item self :
  _qsize (snd (put_append item self)) = _qsize self + 1.
Proof. unfold _qsize. simpl. rewrite length_app. simpl. lia. Qed.

(** Every way through [put] either leaves the queue as it is, or
    appends the item at the tail and returns. *)
Lemma put_cases item block timeout clock self :
  let r := put item block timeout clock self in
  (snd r = self /\ forall u, fst r <> Return u)
  \/ (r = put_append item self
      /\ (0 < _maxsize self -> _qsize self < _maxsize self)).
Proof.
  unfold put, put_wait_forever, put_wait_until.
  destruct block, timeout; simpl; tests; simpl;
    try (left; split; [reflexivity | discriminate]);
    right; split; auto; lia.
Qed.

Lemma put_resume_cases item endtime clock self :
  let r := put_resume item endtime clock self in
  (snd r = self /\ forall u, fst r <> Return u)
  \/ (r = put_append item self /\ _qsize self < _maxsize self).
Proof.
  unfold put_resume, put_wait_forever, put_wait_until.
  destruct endtime; simpl; tests; simpl;
    try (left; split; [reflexivity | discriminate]);
    right; split; auto; lia.
Qed.

(** Every way through [get] either leaves the queue as it is, or
    removes the item at the head and returns it. *)
Lemma get_popleft_cases self :
  _qsize self <> 0 ->
  exists item rest,
    _queue self = item :: rest
    /\ get_popleft self
       = (Return item, {| _queue := rest; _maxsize := _maxsize self |}).
Proof.
  unfold _qsize, get_popleft. destruct (_queue self) as [|item rest].
  - simpl. lia.
  - intros _. exists item, rest. split; reflexivity.
Qed.

Lemma get_cases block timeout clock self :
  let r := get block timeout clock self in
  (snd r = self /\ forall x, fst r <> Return x)
  \/ (exists item rest,
        _queue self = item :: rest
        /\ r = (Return item,
                {| _queue := rest; _maxsize := _maxsize self |})).
Proof.
  unfold get, get_wait_forever, get_wait_until.
  destruct block, timeout; simpl; tests; simpl;
    try (left; split; [reflexivity | discriminate]);
    right; apply get_popleft_cases; assumption.
Qed.

Lemma get_resume_cases endtime clock self :
  let r := get_resume endtime clock self in
  (snd r = self /\ forall x, fst r <> Return x)
  \/ (exists item rest,
        _queue self = item :: rest
        /\ r = (Return item,
                {| _queue := rest; _maxsize := _maxsize self |})).
Proof.
  unfold get_resume, get_wait_forever, get_wait_until.
  destruct endtime; simpl; tests; simpl;
    try (left; split; [reflexivity | discriminate]);
    right; apply get_popleft_cases; assumption.
Qed.

Lemma after_put_unchanged item h r :
  snd r = queue h -> (forall u, fst r <> Return u) ->
  after_put item h r = h.
Proof.
  intros Hq Hr. unfold after_put. destruct h as [i o q]; simpl in *.
  destruct (fst r) as [u| |]; [destruct (Hr u); reflexivity | |];
    now rewrite Hq.
Qed.

Lemma after_get_unchanged h r :
  snd r = queue h -> (forall x, fst r <> Return x) ->
  after_get h r = h.
Proof.
  intros Hq Hr. unfold after_get. destruct h as [i o q]; simpl in *.
  destruct (fst r) as [x| |]; [destruct (Hr x); reflexivity | |];
    now rewrite Hq.
Qed.

Lemma step_effect h ev : effect h (step h ev).
Proof.
  destruct ev as [item block timeout clock | item endtime clock
                 | block timeout clock | endtime clock]; simpl.
  - destruct (put_cases item block timeout clock (queue h))
      as [[Hq Hr] | [Hr Hlt]].
    + rewrite after_put_unchanged by assumption. constructor.
    + rewrite Hr. apply effect_put. assumption.
  - destruct (put_resume_cases item endtime clock (queue h))
      as [[Hq Hr] | [Hr Hlt]].
    + rewrite after_put_unchanged by assumption. constructor.
    + rewrite Hr. apply effect_put. intros _. assumption.
  - destruct (get_cases block timeout clock (queue h))
      as [[Hq Hr] | (item & rest & Hl & Hr)].
    + rewrite after_get_unchanged by assumption. constructor.
    + rewrite Hr. apply (effect_get h item rest Hl).
  - destruct (get_resume_cases endtime clock (queue h))
      as [[Hq Hr] | (item & rest & Hl & Hr)].
    + rewrite after_get_unchanged by assumption. constructor.
    + rewrite Hr. apply (effect_get h item rest Hl).
Qed.

(** An invariant of the fresh queue kept by every effect holds after
    every sequence of events. *)
Lemma replay_invariant (P : history -> Prop) maxsize :
  P (fresh maxsize) ->
  (forall h h', P h -> effect h h' -> P h') ->
  forall evs, P (replay maxsize evs).
Proof.
  intros H0 Hstep evs. unfold replay.
  generalize dependent (@fresh T maxsize).
  induction evs as [|ev evs IH]; intros h Hh; simpl.
  - assumption.
  - apply IH. apply (Hstep h); [assumption | apply step_effect].
Qed.

Lemma fifo_replay maxsize (evs : list (@event T)) :
  fifo (replay maxsize evs).
Proof.
  apply replay_invariant.
  - reflexivity.
  - intros h h' Hh [ | item _ | item rest Hl]; unfold fifo in *; simpl.
    + assumption.
    + rewrite Hh. now rewrite app_assoc.
    + rewrite Hh, Hl. now rewrite <- app_assoc.
Qed.

Lemma bounded_replay K (evs : list (@event T)) :
  0 < K -> bounded K (replay K evs).
Proof.
  intros HK. apply replay_invariant.
  - unfold bounded, _qsize. simpl. lia.
  - intros h h' [Hm Hs] [ | item Hlt | item rest Hl];
      unfold bounded in *; simpl.
    + auto.
    + split; [assumption|].
      pose proof (_qsize_append item (queue h)) as Ha. simpl in Ha.
      rewrite Ha. lia.
    + split; [assumption|]. unfold _qsize in *. rewrite Hl in Hs.
      simpl in *. lia.
Qed.

End QueueFacts.

(** *** A producer that puts a whole list, then a consumer that gets as
    many items: the scenario of the FIFO tests. *)

Section PutAllGetAll.
Import custom_queue.
Context {T : Type}.
Variable clock : Clock.

Lemma put_blocking_room (item : T) (self : ThreadSafeQueue T) :
  _maxsize self <= 0 \/ _qsize self < _maxsize self ->
  put item true None clock self = put_append item self.
Proof.
  intros H. unfold put, put_wait_forever. simpl.
  destruct (Z.gtb_spec (_maxsize self) 0); [|reflexivity].
  destruct (Z.geb_spec (_qsize self) (_maxsize self)); [lia|reflexivity].
Qed.

Lemma get_blocking_item (item : T) (rest : list T) (m : Z) :
  get true None clock {| _queue := item :: rest; _maxsize := m |}
  = (Return item, {| _queue := rest; _maxsize := m |}).
Proof. reflexivity. Qed.

Lemma replay_puts (xs : list T) : forall i o q m,
  m <= 0 \/ Z.of_nat (length q) + Z.of_nat (length xs) <= m ->
  fold_left step (map (fun x => call_put x true None clock) xs)
    {| inserted := i; removed := o;
       queue := {| _queue := q; _maxsize := m |} |}
  = {| inserted := i ++ xs; removed := o;
       queue := {| _queue := q ++ xs; _maxsize := m |} |}.
Proof.
  induction xs as [|x xs IH]; intros i o q m Hm; simpl.
  - now rewrite !app_nil_r.
  - rewrite put_blocking_room by (unfold _qsize; simpl in *; lia).
    unfold after_put, put_append. simpl. rewrite IH.
    + now rewrite <- !app_assoc.
    + rewrite length_app. simpl in *. lia.
Qed.

Lemma replay_gets (ys : list T) : forall i o rest m,
  fold_left step (repeat (call_get true None clock) (length ys))
    {| inserted := i; removed := o;
       queue := {| _queue := ys ++ rest; _maxsize := m |} |}
  = {| inserted := i; removed := o ++ ys;
       queue := {| _queue := rest; _maxsize := m |} |}.
Proof.
  induction ys as [|y ys IH]; intros i o rest m; simpl.
  - now rewrite app_nil_r.
  - rewrite get_blocking_item. unfold after_get. simpl. rewrite IH.
    now rewrite <- app_assoc.
Qed.

(** With room for all of them (no bound, or a bound not below their
    number), every [put] of the list returns, and as many calls of [get]
    return the same items in the same order. *)
Lemma put_all_then_get_all (maxsize : Z) (xs : list T) :
  maxsize <= 0 \/ Z.of_nat (length xs) <= maxsize ->
  replay maxsize
    (map (fun x => call_put x true None clock) xs
     ++ repeat (call_get true None clock) (length xs))
  = {| inserted := xs; removed := xs; queue := __init__ maxsize |}.
Proof.
  intros H. unfold replay, fresh, __init__.
  rewrite fold_left_app, replay_puts by (simpl; lia). simpl.
  pose proof (replay_gets xs xs [] [] maxsize) as Hget.
  rewrite app_nil_r in Hget. exact Hget.
Qed.

End PutAllGetAll.

(** *** The claims about the queue *)



(** C2. A queue constructed with [maxsize = K > 0] has between 0 and [K]
    items after every sequence of [put] and [get] activations. *)
Theorem queue_size_within_capacity :
  forall (T : Type) (K : Z) (evs : list (@custom_queue.event T)),
    0 < K ->
    0 <= custom_queue.qsize (custom_queue.queue (custom_queue.replay K evs))
      <= K.
Proof.
  intros T K evs HK. destruct (bounded_replay K evs HK) as [_ H]. exact H.
Qed.

Lemma queue_size_within_capacity_witness :
  let clock : Clock := fun _ => 0%float in
  let evs :=
    [custom_queue.call_put 10%nat true None clock;
     custom_queue.call_put 20%nat false None clock;
     custom_queue.call_put 30%nat true (Some 1%float) clock;
     custom_queue.call_put 40%nat false None clock] in
  custom_queue._queue (custom_queue.queue (custom_queue.replay 2 evs))
  = [10%nat; 20%nat]
  /\ 0 <= custom_queue.qsize
            (custom_queue.queue (custom_queue.replay 2 evs)) <= 2.
Proof.
  intros clock evs. split; [reflexivity|].
  apply (queue_size_within_capacity nat 2 evs). lia.
Defined.

(** C7. On a bounded queue that is full, [put(item, block=False)] raises
    [QueueFull] at once and the queue is as before; on an empty queue,
    [get(block=False)] raises [QueueEmpty] at once and the queue is as
    before. *)
Theorem nonblocking_put_full_get_empty :
  forall (T : Type) (self : custom_queue.ThreadSafeQueue T) (item : T)
         (timeout : option float) (clock : Clock),
    (custom_queue.full self = true ->
     custom_queue.put item false timeout clock self
     = (custom_queue.Raise QueueFull, self))
    /\ (custom_queue.empty self = true ->
        custom_queue.get false timeout clock self
        = (custom_queue.Raise QueueEmpty, self)).
Proof.
  intros T self item timeout clock. split.
  - unfold custom_queue.full, custom_queue.put. intros H.
    apply andb_prop in H. destruct H as [Hm Hs].
    apply Z.ltb_lt in Hm. apply Z.leb_le in Hs. simpl.
    destruct (Z.gtb_spec (custom_queue._maxsize self) 0); [|lia].
    destruct (Z.geb_spec (custom_queue._qsize self)
                (custom_queue._maxsize self)); [reflexivity|lia].
  - unfold custom_queue.empty, custom_queue.get. intros H. simpl.
    now rewrite H.
Qed.

Lemma nonblocking_put_full_get_empty_witness :
  let clock : Clock := fun _ => 0%float in
  let q :=
    {| custom_queue._queue := [10%nat];
       custom_queue._maxsize := 1 |} in
  custom_queue.put 20%nat false None clock q
  = (custom_queue.Raise QueueFull, q)
  /\ custom_queue.get false None clock (@custom_queue.__init__ nat 1)
     = (custom_queue.Raise QueueEmpty, custom_queue.__init__ 1).
Proof.
  intros clock q. split.
  - apply (nonblocking_put_full_get_empty nat q 20%nat None clock).
    reflexivity.
  - apply (nonblocking_put_full_get_empty nat (custom_queue.__init__ 1)
             0%nat None clock).
    reflexivity.
Defined.

(** C5, as the code has it.  With a negative timeout [d]:
    [get(block=True, timeout=d)] raises [ValueError] on every queue, and
    [put(item, block=True, timeout=d)] raises [ValueError] on every
    bounded queue ([maxsize > 0]), in both cases without waiting and with
    the queue as before; on an unbounded queue ([maxsize <= 0]) [put]
    does not look at the timeout and appends the item. *)
Theorem negative_timeout_rejected :
  forall (T : Type) (self : custom_queue.ThreadSafeQueue T) (item : T)
         (d : float) (clock : Clock),
    PrimFloat.ltb d 0%float = true ->
    custom_queue.get true (Some d) clock self
    = (custom_queue.Raise ValueError, self)
    /\ (0 < custom_queue._maxsize self ->
        custom_queue.put item true (Some d) clock self
        = (custom_queue.Raise ValueError, self))
    /\ (custom_queue._maxsize self <= 0 ->
        custom_queue.put item true (Some d) clock self
        = custom_queue.put_append item self).
Proof.
  intros T self item d clock Hd. unfold custom_queue.get, custom_queue.put.
  simpl. rewrite Hd. repeat split.
  - intros Hm. destruct (Z.gtb_spec (custom_queue._maxsize self) 0);
      [reflexivity|lia].
  - intros Hm. destruct (Z.gtb_spec (custom_queue._maxsize self) 0);
      [lia|reflexivity].
Qed.

Lemma negative_timeout_rejected_witness :
  let clock : Clock := fun _ => 0%float in
  let q := @custom_queue.__init__ nat 10 in
  custom_queue.get true (Some (-1)%float) clock q
  = (custom_queue.Raise ValueError, q)
  /\ custom_queue.put 7%nat true (Some (-1)%float) clock q
     = (custom_queue.Raise ValueError, q).
Proof.
  intros clock q.
  destruct (negative_timeout_rejected nat q 7%nat (-1)%float clock)
    as (Hget & Hput & _); [reflexivity|].
  split; [exact Hget | apply Hput; reflexivity].
Defined.

(** C5 as stated fails for [put] on an unbounded queue: with timeout
    [-1.0] the call returns and the item is in the queue. *)
Lemma negative_timeout_put_unbounded :
  PrimFloat.ltb (-1)%float 0%float = true
  /\ custom_queue.put 7%nat true (Some (-1)%float) (fun _ => 0%float)
       (custom_queue.__init__ 0)
     = (custom_queue.Return tt,
        {| custom_queue._queue := [7%nat]; custom_queue._maxsize := 0 |})
  /\ custom_queue.put 7%nat true (Some (-1)%float) (fun _ => 0%float)
       (custom_queue.__init__ 0)
     <> (custom_queue.Raise ValueError, custom_queue.__init__ 0).
Proof. repeat split. discriminate. Qed.

(** ** The producer *)

Section ProducerFacts.
Import producer.
Variable w : World.

(** The loop never changes the configuration or the sentinel, and the
    calls it makes are the per-item inserts of a prefix of its items. *)
Lemma _run_for_calls (items : list object) : forall i self log,
  let r := _run_for w i items self log in
  config (fst (snd r)) = config self
  /\ sentinel (fst (snd r)) = sentinel self
  /\ exists n,
       (n <= length items)%nat
       /\ snd (snd r) = log ++ map (item_put (config self)) (firstn n items).
Proof.
  induction items as [|item rest IH]; intros i self log; simpl.
  - repeat split. exists 0%nat. simpl. now rewrite app_nil_r.
  - set (self1 := if stop_requested w i then stop self else self).
    assert (Hc : config self1 = config self)
      by (unfold self1; destruct (stop_requested w i); reflexivity).
    assert (Hs : sentinel self1 = sentinel self)
      by (unfold self1; destruct (stop_requested w i); reflexivity).
    destruct (_is_running self1); simpl.
    + rewrite Hc.
      destruct (put_reply w (length log)) as [u|e|].
      * specialize (IH (S i) (incr__items_produced self1)
                      (log ++ [item_put (config self) item])).
        simpl in IH. destruct IH as (IHc & IHs & n & Hn & Hlog).
        fold (item_put (config self) item).
        rewrite IHc, IHs, Hc, Hs. repeat split.
        exists (S n). split; [lia|]. rewrite Hlog, Hc. simpl.
        now rewrite <- app_assoc.
      * fold (item_put (config self) item). simpl. rewrite Hc.
        destruct (ProducerConfig.stop_on_error (config self)).
        -- simpl. rewrite Hc, Hs. repeat split.
           exists 1%nat. split; [lia|]. simpl. now destruct rest.
        -- specialize (IH (S i) (incr__errors_encountered self1)
                         (log ++ [item_put (config self) item])).
           simpl in IH. destruct IH as (IHc & IHs & n & Hn & Hlog).
           rewrite IHc, IHs, Hc, Hs. repeat split.
           exists (S n). split; [lia|]. rewrite Hlog, Hc. simpl.
           now rewrite <- app_assoc.
      * simpl. rewrite Hc, Hs. repeat split.
        exists 1%nat. split; [lia|]. simpl. now destruct rest.
    + rewrite Hc, Hs. repeat split. exists 0%nat. simpl.
      split; [lia|]. now rewrite app_nil_r.
Qed.

(** After the loop is left normally, [_run] makes exactly one more call:
    the sentinel, blocking, with no timeout. *)
Lemma _run_sends_sentinel (self : Producer) :
  let loop := _run_for w 0 (source self) self [] in
  fst loop = exhausted \/ fst loop = stopped ->
  snd (snd (_run w self))
  = snd (snd loop) ++ [queue_put (sentinel self) true None].
Proof.
  intros loop H. unfold _run. fold loop.
  destruct (_run_for_calls (source self) 0 self []) as (_ & Hs & _).
  fold loop in Hs.
  destruct loop as [ex [self' log]]. simpl in *.
  assert (Hsend :
    snd (snd (match _send_sentinel w (self', log) with
              | (Returned _, (self0, log0)) =>
                  (Returned tt, (set__is_running false self0, log0))
              | (Raised e, (self0, log0)) =>
                  (Raised e, (set__is_running false self0, log0))
              | (Hung, st) => (Hung, st)
              end))
    = log ++ [queue_put (sentinel self) true None]).
  { unfold _send_sentinel. rewrite Hs.
    destruct (put_reply w (length log)); reflexivity. }
  destruct H as [-> | ->]; exact Hsend.
Qed.

(** The first insert that fails, under [stop_on_error]: the loop is left
    by the raise, right after that call. *)
Lemma _run_for_aborts (k : nat) : forall items i self log item e,
  ProducerConfig.stop_on_error (config self) = true ->
  _is_running self = true ->
  length log = i ->
  nth_error items k = Some item ->
  (forall j, (j <= k)%nat -> stop_requested w (i + j) = false) ->
  (forall j, (j < k)%nat -> put_reply w (i + j) = Returned tt) ->
  put_reply w (i + k) = Raised e ->
  _run_for w i items self log
  = (aborted ProducerError,
     ({| config := config self; source := source self;
         sentinel := sentinel self;
         _items_produced := _items_produced self + Z.of_nat k;
         _errors_encountered := _errors_encountered self + 1;
         _is_running := true; _thread := _thread self |},
      log ++ map (item_put (config self)) (firstn (S k) items))).
Proof.
  induction k as [|k IH]; intros items i self log item e Hstop Hrun Hlen
    Hnth Hreq Hok Hfail;
    destruct items as [|x rest]; try discriminate; simpl in Hnth.
  - injection Hnth as ->.
    assert (Hr0 : stop_requested w i = false)
      by (rewrite <- (Nat.add_0_r i); apply Hreq; lia).
    rewrite Nat.add_0_r in Hfail.
    simpl. rewrite Hr0, Hrun. simpl. rewrite Hlen, Hfail. simpl.
    rewrite Hstop, Z.add_0_r.
    destruct self; simpl in *. subst. reflexivity.
  - assert (Hr0 : stop_requested w i = false)
      by (rewrite <- (Nat.add_0_r i); apply Hreq; lia).
    assert (Hok0 : put_reply w i = Returned tt)
      by (rewrite <- (Nat.add_0_r i); apply Hok; lia).
    simpl. rewrite Hr0, Hrun. simpl. rewrite Hlen, Hok0.
    rewrite (IH rest (S i) (incr__items_produced self) _ item e);
      try assumption.
    + simpl. fold (item_put (config self) x).
      rewrite <- app_assoc. simpl.
      do 3 f_equal. lia.
    + rewrite length_app. simpl. lia.
    + intros j Hj. replace (S i + j)%nat with (i + S j)%nat by lia.
      apply Hreq. lia.
    + intros j Hj. replace (S i + j)%nat with (i + S j)%nat by lia.
      apply Hok. lia.
    + replace (S i + k)%nat with (i + S k)%nat by lia. exact Hfail.
Qed.

End ProducerFacts.

(** C3. When the loop of [_run] is left because the source is exhausted
    or because the flag was found cleared, the calls made on the queue
    are the per-item inserts followed by one insert of the sentinel with
    [block=True] and [timeout=None], whatever [put_timeout] is.  Under
    [stop_on_error], when an insert of an item raises, [_run] ends by
    raising [ProducerError] with the flag cleared, and the failed insert
    is the last call made on the queue: no sentinel is sent. *)
Theorem producer_sentinel_protocol :
  forall (w : producer.World) (self : producer.Producer),
    let cfg := producer.config self in
    let loop := producer._run_for w 0 (producer.source self) self [] in
    (fst loop = producer.exhausted \/ fst loop = producer.stopped ->
     exists n,
       snd (snd (producer._run w self))
       = map (producer.item_put cfg) (firstn n (producer.source self))
         ++ [producer.queue_put (producer.sentinel self) true None])
    /\ (ProducerConfig.stop_on_error cfg = true ->
        producer._is_running self = true ->
        forall (k : nat) (item : object) (e : exn),
          nth_error (producer.source self) k = Some item ->
          (forall j, (j <= k)%nat -> producer.stop_requested w j = false) ->
          (forall j, (j < k)%nat -> producer.put_reply w j = Returned tt) ->
          producer.put_reply w k = Raised e ->
          producer._run w self
          = (Raised ProducerError,
             ({| producer.config := cfg;
                 producer.source := producer.source self;
                 producer.sentinel := producer.sentinel self;
                 producer._items_produced :=
                   producer._items_produced self + Z.of_nat k;
                 producer._errors_encountered :=
                   producer._errors_encountered self + 1;
                 producer._is_running := false;
                 producer._thread := producer._thread self |},
              map (producer.item_put cfg)
                (firstn (S k) (producer.source self))))).
Proof.
  intros w self cfg loop. split.
  - intros Hexit.
    pose proof (_run_sends_sentinel w self Hexit) as Hsent.
    destruct (_run_for_calls w (producer.source self) 0 self [])
      as (_ & _ & n & _ & Hlog).
    exists n. cbv zeta in Hsent, Hlog. rewrite Hsent, Hlog. reflexivity.
  - intros Hstop Hrun k item e Hnth Hreq Hok Hfail.
    unfold producer._run.
    rewrite (_run_for_aborts w k (producer.source self) 0 self [] item e);
      auto.
Qed.

(** A producer of three items with [put_timeout = 5.0] and
    [stop_on_error]: in a world where every insert returns, the sentinel
    follows the three items; in a world where the second insert raises
    [QueueFull], nothing follows it. *)
Lemma producer_sentinel_protocol_witness :
  let cfg :=
    {| ProducerConfig.name := "P";
       ProducerConfig.put_timeout := Some 5%float;
       ProducerConfig.delay_between_items := 0%float;
       ProducerConfig.stop_on_error := true |} in
  let p :=
    producer.set__is_running true
      (producer.__init__ cfg [1%nat; 2%nat; 3%nat] 0%nat) in
  let calm :=
    {| producer.stop_requested := fun _ => false;
       producer.put_reply := fun _ => Returned tt |} in
  let full_at_1 :=
    {| producer.stop_requested := fun _ => false;
       producer.put_reply :=
         fun k => if Nat.eqb k 1 then Raised QueueFull else Returned tt |} in
  (snd (snd (producer._run calm p))
   = [producer.queue_put 1%nat true (Some 5%float);
      producer.queue_put 2%nat true (Some 5%float);
      producer.queue_put 3%nat true (Some 5%float);
      producer.queue_put 0%nat true None]
   /\ exists n,
        snd (snd (producer._run calm p))
        = map (producer.item_put cfg) (firstn n [1%nat; 2%nat; 3%nat])
          ++ [producer.queue_put 0%nat true None])
  /\ (fst (producer._run full_at_1 p) = Raised ProducerError
      /\ snd (snd (producer._run full_at_1 p))
         = [producer.queue_put 1%nat true (Some 5%float);
            producer.queue_put 2%nat true (Some 5%float)]).
Proof.
  intros cfg p calm full_at_1. split.
  - split; [reflexivity|].
    apply (proj1 (producer_sentinel_protocol calm p)).
    left. reflexivity.
  - rewrite (proj2 (producer_sentinel_protocol full_at_1 p)
               eq_refl eq_refl 1%nat 2%nat QueueFull eq_refl).
    + split; reflexivity.
    + intros j _. reflexivity.
    + intros j Hj. destruct j as [|j]; [reflexivity|lia].
    + reflexivity.
Defined.

(** ** The consumer *)



(** ** Joining a worker that was never started *)

(** C9. When [_thread] is [None], [join] returns [True] whatever the
    timeout, for a producer and for a consumer. *)
Theorem join_before_start :
  forall (timeout : option float),
    (forall p : producer.Producer,
        producer._thread p = None ->
        producer.join timeout p = Returned true)
    /\ (forall c : consumer.Consumer,
          consumer._thread c = None ->
          consumer.join timeout c = Returned true).
Proof.
  intros timeout. split; intros x Hx.
  - unfold producer.join. now rewrite Hx.
  - unfold consumer.join. now rewrite Hx.
Qed.

Lemma join_before_start_witness :
  let pcfg :=
    {| ProducerConfig.name := "P";
       ProducerConfig.put_timeout := None;
       ProducerConfig.delay_between_items := 0%float;
       ProducerConfig.stop_on_error := true |} in
  let ccfg :=
    {| ConsumerConfig.name := "C";
       ConsumerConfig.get_timeout := None;
       ConsumerConfig.delay_between_items := 0%float;
       ConsumerConfig.stop_on_error := true |} in
  producer.join None (producer.__init__ pcfg [1%nat] 0%nat) = Returned true
  /\ consumer.join (Some 2%float) (consumer.__init__ ccfg [] 0%nat)
     = Returned true.
Proof.
  intros pcfg ccfg. split.
  - apply (proj1 (join_before_start None)). reflexivity.
  - apply (proj2 (join_before_start (Some 2%float))). reflexivity.
Defined.

(** ** Metrics *)

(** The two ways through [calculate_duration]. *)
Lemma calculate_duration_cases (m : SystemMetrics.t) :
  (PrimFloat.eqb (SystemMetrics.start_time m) 0%float = false ->
   PrimFloat.eqb (SystemMetrics.end_time m) 0%float = false ->
   SystemMetrics.calculate_duration m
   = SystemMetrics.set_execution_duration
       (PrimFloat.sub (SystemMetrics.end_time m) (SystemMetrics.start_time m))
       m)
  /\ (PrimFloat.eqb (SystemMetrics.start_time m) 0%float = true
      \/ PrimFloat.eqb (SystemMetrics.end_time m) 0%float = true ->
      SystemMetrics.calculate_duration m = m).
Proof.
  unfold SystemMetrics.calculate_duration, truthy. split.
  - intros Hs He. now rewrite Hs, He.
  - intros [H | H]; rewrite H; simpl; [reflexivity|].
    now rewrite andb_false_r.
Qed.

(** C10. [calculate_duration] stores [end_time - start_time] in
    [execution_duration] when both times are nonzero, changing no other
    field; when either of them equals [0.0] it changes nothing. *)
Theorem calculate_duration_guard :
  forall m : SystemMetrics.t,
    (PrimFloat.eqb (SystemMetrics.start_time m) 0%float = false ->
     PrimFloat.eqb (SystemMetrics.end_time m) 0%float = false ->
     SystemMetrics.calculate_duration m
     = {| SystemMetrics.items_produced := SystemMetrics.items_produced m;
          SystemMetrics.items_consumed := SystemMetrics.items_consumed m;
          SystemMetrics.producer_errors := SystemMetrics.producer_errors m;
          SystemMetrics.consumer_errors := SystemMetrics.consumer_errors m;
          SystemMetrics.start_time := SystemMetrics.start_time m;
          SystemMetrics.end_time := SystemMetrics.end_time m;
          SystemMetrics.execution_duration :=
            PrimFloat.sub (SystemMetrics.end_time m)
              (SystemMetrics.start_time m) |})
    /\ (PrimFloat.eqb (SystemMetrics.start_time m) 0%float = true
        \/ PrimFloat.eqb (SystemMetrics.end_time m) 0%float = true ->
        SystemMetrics.calculate_duration m = m).
Proof.
  intros m. destruct (calculate_duration_cases m) as [Hset Hkeep].
  split; [|exact Hkeep].
  intros Hs He. rewrite Hset by assumption. reflexivity.
Qed.

Lemma calculate_duration_guard_witness :
  let m (s e : float) :=
    {| SystemMetrics.items_produced := 4;
       SystemMetrics.items_consumed := 3;
       SystemMetrics.producer_errors := 2;
       SystemMetrics.consumer_errors := 1;
       SystemMetrics.start_time := s;
       SystemMetrics.end_time := e;
       SystemMetrics.execution_duration := 9%float |} in
  SystemMetrics.execution_duration
    (SystemMetrics.calculate_duration (m 100%float 103%float)) = 3%float
  /\ SystemMetrics.calculate_duration (m 0%float 103%float)
     = m 0%float 103%float
  /\ SystemMetrics.calculate_duration (m 100%float (-0)%float)
     = m 100%float (-0)%float.
Proof.
  intros m. split; [|split].
  - rewrite (proj1 (calculate_duration_guard (m 100%float 103%float))
               eq_refl eq_refl).
    reflexivity.
  - apply (proj2 (calculate_duration_guard (m 0%float 103%float))).
    left. reflexivity.
  - apply (proj2 (calculate_duration_guard (m 100%float (-0)%float))).
    right. reflexivity.
Defined.

(** ** The coordinator *)

Section CoordinatorFacts.
Import coordinator.

(** What each of the two methods does, by the guard it has. *)
Lemma add_producer_guard (p : producer.Producer) (self : Coordinator) :
  (existsb producer.is_running (producers self) = true ->
   add_producer p self = (Raised CoordinatorError, self))
  /\ (existsb producer.is_running (producers self) = false ->
      add_producer p self
      = (Returned tt, set_producers (producers self ++ [p]) self)).
Proof. unfold add_producer. split; intros ->; reflexivity. Qed.

Lemma add_consumer_guard (c : consumer.Consumer) (self : Coordinator) :
  (existsb consumer.is_running (consumers self) = true ->
   add_consumer c self = (Raised CoordinatorError, self))
  /\ (existsb consumer.is_running (consumers self) = false ->
      add_consumer c self
      = (Returned tt, set_consumers (consumers self ++ [c]) self)).
Proof. unfold add_consumer. split; intros ->; reflexivity. Qed.



End CoordinatorFacts.




(** C6, evaluated where the code departs from it: [add_producer] tests
    the producers only and [add_consumer] the consumers only, so a
    producer is added while a consumer runs, and a consumer is added
    while a producer runs. *)
Lemma add_worker_while_other_kind_runs :
  let pcfg :=
    {| ProducerConfig.name := "P";
       ProducerConfig.put_timeout := None;
       ProducerConfig.delay_between_items := 0%float;
       ProducerConfig.stop_on_error := true |} in
  let ccfg :=
    {| ConsumerConfig.name := "C";
       ConsumerConfig.get_timeout := None;
       ConsumerConfig.delay_between_items := 0%float;
       ConsumerConfig.stop_on_error := true |} in
  let cfg :=
    {| CoordinatorConfig.name := "Coordinator";
       CoordinatorConfig.join_timeout := Some 30%float;
       CoordinatorConfig.sentinel_value := 0%nat;
       CoordinatorConfig.shutdown_grace_period := 5%float |} in
  let p := producer.__init__ pcfg [1%nat] 0%nat in
  let c := consumer.__init__ ccfg [] 0%nat in
  let live := {| join_then_is_alive := fun _ => Some true |} in
  let running_c := snd (consumer.start live c) in
  let running_p := snd (producer.start live p) in
  let with_c := coordinator.__init__ cfg [] [running_c] in
  let with_p := coordinator.__init__ cfg [running_p] [] in
  (existsb consumer.is_running (coordinator.consumers with_c) = true
   /\ coordinator.add_producer p with_c
      = (Returned tt, coordinator.set_producers [p] with_c))
  /\ (existsb producer.is_running (coordinator.producers with_p) = true
      /\ coordinator.add_consumer c with_p
         = (Returned tt, coordinator.set_consumers [c] with_p)).
Proof. repeat split. Qed.

(** * Further properties of the code *)

(** ** custom_queue.py *)

(** X1. A queue with [maxsize <= 0] is never full, and [put] on it
    returns at once with the item appended at the tail, whatever [block]
    and [timeout] are. *)
Theorem unbounded_put_always_returns :
  forall (T : Type) (self : custom_queue.ThreadSafeQueue T) (item : T)
         (block : bool) (timeout : option float) (clock : Clock),
    custom_queue._maxsize self <= 0 ->
    custom_queue.full self = false
    /\ custom_queue.put item block timeout clock self
       = (custom_queue.Return tt,
          {| custom_queue._queue := custom_queue._queue self ++ [item];
             custom_queue._maxsize := custom_queue._maxsize self |})
    /\ custom_queue.full
         (snd (custom_queue.put item block timeout clock self)) = false.
Proof.
  intros T self item block timeout clock Hm.
  assert (Hput : custom_queue.put item block timeout clock self
                 = custom_queue.put_append item self).
  { unfold custom_queue.put.
    destruct (Z.gtb_spec (custom_queue._maxsize self) 0); [lia|reflexivity]. }
  assert (Hfull : forall q : custom_queue.ThreadSafeQueue T,
             custom_queue._maxsize q <= 0 -> custom_queue.full q = false).
  { intros q Hq. unfold custom_queue.full.
    destruct (Z.ltb_spec 0 (custom_queue._maxsize q)); [lia|reflexivity]. }
  rewrite Hput. repeat split; auto.
Qed.

Lemma unbounded_put_always_returns_witness :
  let q := {| custom_queue._queue := [1%nat; 2%nat];
              custom_queue._maxsize := 0 |} in
  custom_queue.put 3%nat false None (fun _ => 0%float) q
  = (custom_queue.Return tt,
     {| custom_queue._queue := [1%nat; 2%nat; 3%nat];
        custom_queue._maxsize := 0 |}).
Proof.
  intros q.
  apply (unbounded_put_always_returns nat q 3%nat false None
           (fun _ => 0%float)).
  simpl. lia.
Defined.

Section QueueProgress.
Import custom_queue.
Context {T : Type}.
Implicit Types (self : ThreadSafeQueue T).

(** A timeout that [put] and [get] accept: absent, or not below zero. *)
Lemma put_with_room item block timeout clock self :
  (forall d, timeout = Some d -> PrimFloat.ltb d 0%float = false) ->
  full self = false ->
  put item block timeout clock self = put_append item self.
Proof.
  intros Ht Hfull. unfold full in Hfull. unfold put, put_wait_forever,
    put_wait_until.
  destruct (Z.gtb_spec (_maxsize self) 0) as [Hm|Hm]; [|reflexivity].
  destruct (Z.geb_spec (_qsize self) (_maxsize self)) as [Hs|Hs].
  - apply andb_false_iff in Hfull.
    destruct Hfull as [H|H]; [apply Z.ltb_ge in H | apply Z.leb_gt in H];
      lia.
  - destruct block; simpl; [|reflexivity].
    destruct timeout as [d|]; [|reflexivity].
    now rewrite (Ht d eq_refl).
Qed.

Lemma put_when_full item block timeout clock self :
  full self = true ->
  snd (put item block timeout clock self) = self
  /\ forall u, fst (put item block timeout clock self) <> Return u.
Proof.
  intros Hfull. unfold full in Hfull. apply andb_prop in Hfull.
  destruct Hfull as [Hm Hs]. apply Z.ltb_lt in Hm. apply Z.leb_le in Hs.
  destruct (put_cases item block timeout clock self) as [H | [_ H]].
  - exact H.
  - specialize (H Hm). lia.
Qed.

Lemma get_with_item block timeout clock self :
  (forall d, timeout = Some d -> PrimFloat.ltb d 0%float = false) ->
  empty self = false ->
  exists item rest,
    _queue self = item :: rest
    /\ get block timeout clock self
       = (Return item, {| _queue := rest; _maxsize := _maxsize self |}).
Proof.
  intros Ht He. unfold empty in He. apply Z.eqb_neq in He.
  destruct (get_popleft_cases self He) as (item & rest & Hq & Hpop).
  exists item, rest. split; [assumption|].
  unfold get, get_wait_forever, get_wait_until.
  destruct (Z.eqb_spec (_qsize self) 0); [contradiction|].
  destruct block; simpl; [|assumption].
  destruct timeout as [d|]; [|assumption].
  now rewrite (Ht d eq_refl).
Qed.

Lemma get_when_empty block timeout clock self :
  empty self = true ->
  snd (get block timeout clock self) = self
  /\ forall x, fst (get block timeout clock self) <> Return x.
Proof.
  intros He. unfold empty in He. apply Z.eqb_eq in He.
  destruct (get_cases block timeout clock self)
    as [H | (item & rest & Hq & _)].
  - exact H.
  - unfold _qsize in He. rewrite Hq in He. simpl in He. lia.
Qed.

End QueueProgress.

(** X2. With a timeout that is absent or not negative, [put] returns in
    the activation that calls it exactly when [full()] is false, and then
    the item is the new tail; when [full()] is true the activation raises
    or waits and the queue is as before. *)
Theorem put_returns_iff_not_full :
  forall (T : Type) (self : custom_queue.ThreadSafeQueue T) (item : T)
         (block : bool) (timeout : option float) (clock : Clock),
    (forall d, timeout = Some d -> PrimFloat.ltb d 0%float = false) ->
    (custom_queue.full self = false ->
     custom_queue.put item block timeout clock self
     = (custom_queue.Return tt,
        {| custom_queue._queue := custom_queue._queue self ++ [item];
           custom_queue._maxsize := custom_queue._maxsize self |}))
    /\ (custom_queue.full self = true ->
        snd (custom_queue.put item block timeout clock self) = self
        /\ forall u,
             fst (custom_queue.put item block timeout clock self)
             <> custom_queue.Return u).
Proof.
  intros T self item block timeout clock Ht. split.
  - intros H. now rewrite put_with_room.
  - apply put_when_full.
Qed.

Lemma put_returns_iff_not_full_witness :
  let q := {| custom_queue._queue := [1%nat];
              custom_queue._maxsize := 2 |} in
  custom_queue.put 2%nat true (Some 3%float) (fun _ => 0%float) q
  = (custom_queue.Return tt,
     {| custom_queue._queue := [1%nat; 2%nat];
        custom_queue._maxsize := 2 |})
  /\ snd (custom_queue.put 3%nat true None (fun _ => 0%float)
            {| custom_queue._queue := [1%nat; 2%nat];
               custom_queue._maxsize := 2 |})
     = {| custom_queue._queue := [1%nat; 2%nat];
          custom_queue._maxsize := 2 |}.
Proof.
  intros q. split.
  - apply (put_returns_iff_not_full nat q 2%nat true (Some 3%float)
             (fun _ => 0%float)).
    + intros d [= <-]. reflexivity.
    + reflexivity.
  - apply (put_returns_iff_not_full nat _ 3%nat true None
             (fun _ => 0%float)).
    + intros d [=].
    + reflexivity.
Defined.

(** X3. With a timeout that is absent or not negative, [get] returns in
    the activation that calls it exactly when [empty()] is false: it
    returns the head and leaves the rest; when [empty()] is true the
    activation raises or waits and the queue is as before. *)
Theorem get_returns_iff_not_empty :
  forall (T : Type) (self : custom_queue.ThreadSafeQueue T)
         (block : bool) (timeout : option float) (clock : Clock),
    (forall d, timeout = Some d -> PrimFloat.ltb d 0%float = false) ->
    (custom_queue.empty self = false ->
     exists item rest,
       custom_queue._queue self = item :: rest
       /\ custom_queue.get block timeout clock self
          = (custom_queue.Return item,
             {| custom_queue._queue := rest;
                custom_queue._maxsize := custom_queue._maxsize self |}))
    /\ (custom_queue.empty self = true ->
        snd (custom_queue.get block timeout clock self) = self
        /\ forall x,
             fst (custom_queue.get block timeout clock self)
             <> custom_queue.Return x).
Proof.
  intros T self block timeout clock Ht. split.
  - intros H. now apply get_with_item.
  - apply get_when_empty.
Qed.

Lemma get_returns_iff_not_empty_witness :
  let q := {| custom_queue._queue := [1%nat; 2%nat];
              custom_queue._maxsize := 2 |} in
  (exists item rest,
      custom_queue._queue q = item :: rest
      /\ custom_queue.get true (Some 3%float) (fun _ => 0%float) q
         = (custom_queue.Return item,
            {| custom_queue._queue := rest;
               custom_queue._maxsize := 2 |}))
  /\ snd (custom_queue.get true None (fun _ => 0%float)
            (@custom_queue.__init__ nat 2))
     = custom_queue.__init__ 2.
Proof.
  intros q. split.
  - apply (get_returns_iff_not_empty nat q true (Some 3%float)
             (fun _ => 0%float)).
    + intros d [= <-]. reflexivity.
    + reflexivity.
  - apply (get_returns_iff_not_empty nat (custom_queue.__init__ 2) true
             None (fun _ => 0%float)).
    + intros d [=].
    + reflexivity.
Defined.

(** X4. Round trip on an empty queue, bounded or not: [put] of an item
    followed by [get] gives the item back and leaves the queue as it
    was, in every blocking mode with timeouts that are absent or not
    negative. *)
Theorem put_then_get_on_empty :
  forall (T : Type) (self : custom_queue.ThreadSafeQueue T) (item : T)
         (block block' : bool) (timeout timeout' : option float)
         (clock clock' : Clock),
    (forall d, timeout = Some d -> PrimFloat.ltb d 0%float = false) ->
    (forall d, timeout' = Some d -> PrimFloat.ltb d 0%float = false) ->
    custom_queue._queue self = [] ->
    fst (custom_queue.put item block timeout clock self)
    = custom_queue.Return tt
    /\ custom_queue.get block' timeout' clock'
         (snd (custom_queue.put item block timeout clock self))
       = (custom_queue.Return item, self).
Proof.
  intros T self item block block' timeout timeout' clock clock' Ht Ht' Hq.
  assert (Hfull : custom_queue.full self = false).
  { unfold custom_queue.full, custom_queue._qsize. rewrite Hq. simpl.
    destruct (Z.ltb_spec 0 (custom_queue._maxsize self)); [|reflexivity].
    destruct (Z.leb_spec (custom_queue._maxsize self) 0); [lia|reflexivity]. }
  rewrite (put_with_room item block timeout clock self Ht Hfull).
  split; [reflexivity|].
  unfold custom_queue.put_append. simpl. rewrite Hq. simpl.
  destruct (get_with_item block' timeout' clock'
              {| custom_queue._queue := [item];
                 custom_queue._maxsize := custom_queue._maxsize self |} Ht')
    as (x & rest & Hx & Hget); [reflexivity|].
  simpl in Hx. injection Hx as <- <-. rewrite Hget.
  destruct self; simpl in *. now subst.
Qed.

Lemma put_then_get_on_empty_witness :
  custom_queue.get false None (fun _ => 0%float)
    (snd (custom_queue.put 7%nat true (Some 1%float) (fun _ => 0%float)
            (custom_queue.__init__ 1)))
  = (custom_queue.Return 7%nat, custom_queue.__init__ 1).
Proof.
  apply (put_then_get_on_empty nat (custom_queue.__init__ 1) 7%nat true
           false (Some 1%float) None (fun _ => 0%float) (fun _ => 0%float)).
  - intros d [= <-]. reflexivity.
  - intros d [=].
  - reflexivity.
Defined.

(** X5. An activation of [put] or [get], at its call or after a
    wake-up, that does not return (it raises, or waits again) leaves the
    queue exactly as it found it. *)
Theorem failed_activation_leaves_queue :
  forall (T : Type) (self : custom_queue.ThreadSafeQueue T) (item : T)
         (block : bool) (timeout endtime : option float) (clock : Clock),
    ((forall u, fst (custom_queue.put item block timeout clock self)
                <> custom_queue.Return u) ->
     snd (custom_queue.put item block timeout clock self) = self)
    /\ ((forall u, fst (custom_queue.put_resume item endtime clock self)
                   <> custom_queue.Return u) ->
        snd (custom_queue.put_resume item endtime clock self) = self)
    /\ ((forall x, fst (custom_queue.get block timeout clock self)
                   <> custom_queue.Return x) ->
        snd (custom_queue.get block timeout clock self) = self)
    /\ ((forall x, fst (custom_queue.get_resume endtime clock self)
                   <> custom_queue.Return x) ->
        snd (custom_queue.get_resume endtime clock self) = self).
Proof.
  intros T self item block timeout endtime clock. repeat split; intros H.
  - destruct (put_cases item block timeout clock self) as [[Hq _]|[Hr _]];
      [exact Hq|]. rewrite Hr in H. destruct (H tt). reflexivity.
  - destruct (put_resume_cases item endtime clock self)
      as [[Hq _]|[Hr _]]; [exact Hq|].
    rewrite Hr in H. destruct (H tt). reflexivity.
  - destruct (get_cases block timeout clock self)
      as [[Hq _]|(x & rest & _ & Hr)]; [exact Hq|].
    rewrite Hr in H. destruct (H x). reflexivity.
  - destruct (get_resume_cases endtime clock self)
      as [[Hq _]|(x & rest & _ & Hr)]; [exact Hq|].
    rewrite Hr in H. destruct (H x). reflexivity.
Qed.

(** A full queue of capacity 1: a timed [put] whose deadline has passed
    raises, and the queue still holds its one item. *)
Lemma failed_activation_leaves_queue_witness :
  let q := {| custom_queue._queue := [1%nat];
              custom_queue._maxsize := 1 |} in
  fst (custom_queue.put 2%nat true (Some 0%float) (fun _ => 5%float) q)
  = custom_queue.Raise QueueFull
  /\ snd (custom_queue.put 2%nat true (Some 0%float) (fun _ => 5%float) q)
     = q.
Proof.
  intros q. split; [reflexivity|].
  apply (failed_activation_leaves_queue nat q 2%nat true (Some 0%float)
           None (fun _ => 5%float)).
  intros u. discriminate.
Defined.

(** X6. After any sequence of activations on a fresh queue the capacity
    is the one given at construction, and the size is the number of
    items inserted minus the number of items removed. *)
Theorem capacity_fixed_and_size_accounted :
  forall (T : Type) (maxsize : Z) (evs : list (@custom_queue.event T)),
    let h := custom_queue.replay maxsize evs in
    custom_queue._maxsize (custom_queue.queue h) = maxsize
    /\ custom_queue.qsize (custom_queue.queue h)
       = Z.of_nat (length (custom_queue.inserted h))
         - Z.of_nat (length (custom_queue.removed h)).
Proof.
  intros T maxsize evs h. split.
  - unfold h.
    apply (replay_invariant
             (fun h => custom_queue._maxsize (custom_queue.queue h)
                       = maxsize)).
    + reflexivity.
    + intros h0 h' H0 [ | item _ | item rest _]; simpl; assumption.
  - pose proof (fifo_replay maxsize evs) as Hf.
    unfold custom_queue.fifo in Hf. fold h in Hf.
    unfold custom_queue.qsize, custom_queue._qsize.
    rewrite Hf, length_app. lia.
Qed.

(** ** producer.py *)

Section ProducerRuns.
Import producer.
Variable w : World.



(** What the loop keeps, in every world: the fields it never assigns,
    counters that only grow, and one count per insert that ended. *)
Lemma _run_for_accounting (items : list object) : forall i self log,
  let r := _run_for w i items self log in
  let self' := fst (snd r) in
  source self' = source self
  /\ _thread self' = _thread self
  /\ _items_produced self <= _items_produced self'
  /\ _errors_encountered self <= _errors_encountered self'
  /\ (length log <= length (snd (snd r)))%nat
  /\ _items_produced self' + _errors_encountered self'
     + (match fst r with blocked => 1 | _ => 0 end)
     = _items_produced self + _errors_encountered self
       + Z.of_nat (length (snd (snd r)) - length log).
Proof.
  induction items as [|x rest IH]; intros i self log; simpl.
  - rewrite Nat.sub_diag. repeat split; lia.
  - set (self1 := if stop_requested w i then stop self else self).
    assert (Hk : source self1 = source self
                 /\ _thread self1 = _thread self
                 /\ _items_produced self1 = _items_produced self
                 /\ _errors_encountered self1 = _errors_encountered self)
      by (unfold self1; destruct (stop_requested w i); repeat split).
    destruct Hk as (Hs & Ht & Hp & He).
    destruct (_is_running self1); simpl.
    + destruct (put_reply w (length log)) as [u|e|].
      * specialize (IH (S i) (incr__items_produced self1)
                      (log ++ [item_put (config self1) x])).
        simpl in IH. rewrite length_app in IH. simpl in IH.
        destruct IH as (IHs & IHt & IHp & IHe & IHl & IHsum).
        rewrite IHs, IHt, Hs, Ht. repeat split; try lia.
      * destruct (ProducerConfig.stop_on_error (config self1)).
        -- simpl. rewrite length_app. simpl. rewrite Hs, Ht.
           repeat split; try lia.
        -- specialize (IH (S i) (incr__errors_encountered self1)
                         (log ++ [item_put (config self1) x])).
           simpl in IH. rewrite length_app in IH. simpl in IH.
           destruct IH as (IHs & IHt & IHp & IHe & IHl & IHsum).
           rewrite IHs, IHt, Hs, Ht. repeat split; try lia.
      * simpl. rewrite length_app. simpl. rewrite Hs, Ht.
        repeat split; try lia.
    + rewrite Nat.sub_diag, Hs, Ht. repeat split; lia.
Qed.

End ProducerRuns.









(** X11. In every world, when the loop of [_run] is not left inside a
    call of [put] that never returns, [_items_produced] and
    [_errors_encountered] have together grown by exactly the number of
    calls of [put] the loop made. *)
Theorem producer_counts_every_insert :
  forall (w : producer.World) (self : producer.Producer),
    let r := producer._run_for w 0 (producer.source self) self [] in
    let self' := fst (snd r) in
    fst r <> producer.blocked ->
    producer.items_produced self' + producer.errors_encountered self'
    = producer.items_produced self + producer.errors_encountered self
      + Z.of_nat (length (snd (snd r))).
Proof.
  intros w self r self' Hex.
  destruct (_run_for_accounting w (producer.source self) 0 self [])
    as (_ & _ & _ & _ & _ & Hsum).
  cbv zeta in Hsum. fold r in Hsum. fold self' in Hsum.
  unfold producer.items_produced, producer.errors_encountered.
  simpl in Hsum. rewrite Nat.sub_0_r in Hsum.
  destruct (fst r); try lia. contradiction.
Qed.

Lemma producer_counts_every_insert_witness :
  let cfg :=
    {| ProducerConfig.name := "P";
       ProducerConfig.put_timeout := Some 5%float;
       ProducerConfig.delay_between_items := 0%float;
       ProducerConfig.stop_on_error := true |} in
  let p :=
    producer.set__is_running true
      (producer.__init__ cfg [1%nat; 2%nat; 3%nat] 0%nat) in
  let full_at_1 :=
    {| producer.stop_requested := fun _ => false;
       producer.put_reply :=
         fun k => if Nat.eqb k 1 then Raised QueueFull else Returned tt |} in
  let r := producer._run_for full_at_1 0 (producer.source p) p [] in
  fst r = producer.aborted ProducerError
  /\ producer.items_produced (fst (snd r))
     + producer.errors_encountered (fst (snd r))
     = 0 + 0 + 2.
Proof.
  intros cfg p full_at_1 r. split; [reflexivity|].
  apply (producer_counts_every_insert full_at_1 p). discriminate.
Defined.

(** X12. When the source is empty, or the flag is clear or cleared by
    [stop()] before the first test of the loop, the only call [_run]
    makes on the queue is the insert of the sentinel; when that call
    returns, [_run] returns with the counters as they were and the flag
    clear. *)
Theorem producer_run_only_sentinel :
  forall (w : producer.World) (self : producer.Producer),
    producer.source self = []
    \/ producer.stop_requested w 0 = true
    \/ producer._is_running self = false ->
    producer.put_reply w 0 = Returned tt ->
    producer._run w self
    = (Returned tt,
       (producer.set__is_running false self,
        [producer.queue_put (producer.sentinel self) true None])).
Proof.
  intros w self H Hsent. unfold producer._run.
  destruct (producer.source self) as [|x rest] eqn:Hsrc.
  - simpl. unfold producer._send_sentinel. simpl. now rewrite Hsent.
  - destruct H as [H | [H | H]]; [discriminate | |]; simpl.
    + rewrite H. simpl. unfold producer._send_sentinel. simpl.
      now rewrite Hsent.
    + destruct (producer.stop_requested w 0); simpl; rewrite ?H; simpl;
        unfold producer._send_sentinel; simpl; now rewrite Hsent.
Qed.

Lemma producer_run_only_sentinel_witness :
  let cfg :=
    {| ProducerConfig.name := "P";
       ProducerConfig.put_timeout := Some 5%float;
       ProducerConfig.delay_between_items := 0%float;
       ProducerConfig.stop_on_error := true |} in
  let p :=
    producer.set__is_running true
      (producer.__init__ cfg [1%nat; 2%nat] 9%nat) in
  let stopped_early :=
    {| producer.stop_requested := fun _ => true;
       producer.put_reply := fun _ => Returned tt |} in
  snd (snd (producer._run stopped_early p))
  = [producer.queue_put 9%nat true None]
  /\ producer.items_produced (fst (snd (producer._run stopped_early p)))
     = 0.
Proof.
  intros cfg p stopped_early.
  rewrite (producer_run_only_sentinel stopped_early p
             (or_intror (or_introl eq_refl)) eq_refl).
  split; reflexivity.
Defined.

(** ** consumer.py *)

Section ConsumerRuns.
Import consumer.
Variable w : World.




End ConsumerRuns.







(** ** coordinator.py *)

Section CoordinatorRuns.
Import coordinator.

Lemma filter_nil_existsb {A : Type} (f : A -> bool) (l : list A) :
  filter f l = [] <-> existsb f l = false.
Proof.
  induction l as [|x l IH]; simpl; [tauto|].
  destruct (f x); simpl; [split; discriminate|exact IH].
Qed.

Lemma stop_all_producers (ps : list producer.Producer) :
  existsb producer.is_running (map producer.stop ps) = false.
Proof. induction ps as [|p ps IH]; simpl; auto. Qed.

Lemma stop_all_consumers (cs : list consumer.Consumer) :
  existsb consumer.is_running (map consumer.stop cs) = false.
Proof. induction cs as [|c cs IH]; simpl; auto. Qed.

Lemma sum_from (l : list Z) : forall a, fold_left Z.add l a = a + sum l.
Proof.
  unfold sum. induction l as [|x l IH]; intros a; simpl; [lia|].
  rewrite (IH (a + x)), (IH x). lia.
Qed.

Lemma sum_app (l l' : list Z) : sum (l ++ l') = sum l + sum l'.
Proof. unfold sum at 1. rewrite fold_left_app. fold (sum l). apply sum_from. Qed.

(** When [_wait_for_completion] returns, the workers are as their
    threads left them and none of them has its flag set. *)
Lemma _wait_for_completion_returned (w : World) (self self' : Coordinator)
    (u : unit) :
  _wait_for_completion w self = (Returned u, self') ->
  self' = set_consumers (consumers_left w (consumers self))
            (set_producers (producers_left w (producers self)) self)
  /\ existsb producer.is_running (producers self') = false
  /\ existsb consumer.is_running (consumers self') = false.
Proof.
  unfold _wait_for_completion.
  destruct (join_all _ (producers self)); try discriminate.
  destruct (join_all _ (consumers self)); try discriminate.
  match goal with |- context [is_empty ?l] => destruct l eqn:Hl end;
    simpl; [|discriminate].
  intros [= _ <-]. apply app_eq_nil in Hl. destruct Hl as [Hp Hc].
  apply map_eq_nil in Hp, Hc. simpl in Hp, Hc.
  apply filter_nil_existsb in Hp, Hc. simpl. auto.
Qed.

(** A call of [run] that returns has seen every flag clear. *)
Lemma run_returns_stopped (w : World) (self self' : Coordinator)
    (m : SystemMetrics.t) :
  run w self = (Returned m, self') ->
  config self' = config self
  /\ existsb producer.is_running (producers self') = false
  /\ existsb consumer.is_running (consumers self') = false.
Proof.
  unfold run.
  destruct (existsb producer.is_running (producers self)
            || existsb consumer.is_running (consumers self));
    [discriminate|].
  destruct (is_empty (producers self)); [discriminate|].
  destruct (is_empty (consumers self)); [discriminate|].
  destruct (run_try w self) as [[m0| |] self0] eqn:Htry.
  - intros [= <- <-]. revert Htry. unfold run_try. cbv zeta.
    match goal with
    | |- context [start_consumers w 0 ?l] =>
        destruct (start_consumers w 0 l) as [[u| |] cs]
    end; try discriminate.
    match goal with
    | |- context [start_producers w 0 ?l] =>
        destruct (start_producers w 0 l) as [[u'| |] ps]
    end; try discriminate.
    match goal with
    | |- context [_wait_for_completion w ?s] =>
        destruct (_wait_for_completion w s) as [[u''| |] joined] eqn:Hw
    end; try discriminate.
    apply _wait_for_completion_returned in Hw.
    destruct Hw as (Hj & Hp & Hc).
    intros [= _ <-]. simpl. rewrite Hj in *. simpl in *. auto.
  - destruct (_emergency_shutdown self0) as [[| |] ?]; discriminate.
  - discriminate.
Qed.


End CoordinatorRuns.

(** X16. When [run] returns, no managed producer and no managed consumer
    has its running flag set, and the configuration is as before. *)
Theorem run_returns_with_all_stopped :
  forall (w : coordinator.World) (self self' : coordinator.Coordinator)
         (m : SystemMetrics.t),
    coordinator.run w self = (Returned m, self') ->
    coordinator.config self' = coordinator.config self
    /\ existsb producer.is_running (coordinator.producers self') = false
    /\ existsb consumer.is_running (coordinator.consumers self') = false.
Proof. intros w self self' m. apply run_returns_stopped. Qed.


(** Two workers whose threads end with the flag clear. *)
Lemma run_returns_with_all_stopped_witness :
  let self :=
    coordinator.__init__ demo_coordinator_config
      [producer.__init__ demo_producer_config [1%nat; 2%nat] 0%nat]
      [consumer.__init__ demo_consumer_config [] 0%nat] in
  let w :=
    {| coordinator.time := fun _ => 100%float;
       coordinator.consumer_thread := fun _ => ended_thread;
       coordinator.producer_thread := fun _ => ended_thread;
       coordinator.consumers_left := map consumer.stop;
       coordinator.producers_left := map producer.stop |} in
  (exists m, fst (coordinator.run w self) = Returned m)
  /\ existsb producer.is_running
       (coordinator.producers (snd (coordinator.run w self))) = false.
Proof.
  intros self w.
  destruct (coordinator.run w self) as [r self'] eqn:Hrun.
  destruct r as [m| |]; try (vm_compute in Hrun; discriminate).
  split; [exists m; reflexivity|].
  apply (run_returns_with_all_stopped w self self' m Hrun).
Defined.


(** X18. After [stop], no managed worker has its running flag set and
    the workers' counters are as before; so on the stopped coordinator
    [add_producer], [add_consumer] and [reset] all return, and a second
    [stop] changes nothing. *)
Theorem stop_clears_every_flag :
  forall (self : coordinator.Coordinator) (p : producer.Producer)
         (c : consumer.Consumer),
    let s := coordinator.stop self in
    existsb producer.is_running (coordinator.producers s) = false
    /\ existsb consumer.is_running (coordinator.consumers s) = false
    /\ map producer.items_produced (coordinator.producers s)
       = map producer.items_produced (coordinator.producers self)
    /\ map consumer.items_consumed (coordinator.consumers s)
       = map consumer.items_consumed (coordinator.consumers self)
    /\ coordinator.add_producer p s
       = (Returned tt,
          coordinator.set_producers (coordinator.producers s ++ [p]) s)
    /\ coordinator.add_consumer c s
       = (Returned tt,
          coordinator.set_consumers (coordinator.consumers s ++ [c]) s)
    /\ coordinator.reset s
       = (Returned tt, coordinator.set_metrics SystemMetrics.__init__ s)
    /\ coordinator.stop s = s.
Proof.
  intros self p c s.
  assert (Hp : existsb producer.is_running (coordinator.producers s) = false)
    by apply stop_all_producers.
  assert (Hc : existsb consumer.is_running (coordinator.consumers s) = false)
    by apply stop_all_consumers.
  repeat split; auto.
  - unfold s. simpl. rewrite map_map. reflexivity.
  - unfold s. simpl. rewrite map_map. reflexivity.
  - unfold coordinator.add_producer. now rewrite Hp.
  - unfold coordinator.add_consumer. now rewrite Hc.
  - unfold coordinator.reset. now rewrite Hp, Hc.
  - unfold s, coordinator.stop. simpl. rewrite !map_map. simpl.
    unfold coordinator.set_consumers, coordinator.set_producers. simpl.
    f_equal; apply map_ext; intros x; reflexivity.
Qed.

(** X19. [reset] raises [CoordinatorError], changing nothing, exactly
    when some managed producer or some managed consumer has its running
    flag set; otherwise it returns with the metrics back at their
    defaults and the workers and the configuration as before. *)
Theorem reset_guards_both_lists :
  forall self : coordinator.Coordinator,
    ((exists p, In p (coordinator.producers self)
                /\ producer.is_running p = true)
     \/ (exists c, In c (coordinator.consumers self)
                   /\ consumer.is_running c = true) <->
     coordinator.reset self = (Raised CoordinatorError, self))
    /\ ((forall p, In p (coordinator.producers self) ->
                   producer.is_running p = false) ->
        (forall c, In c (coordinator.consumers self) ->
                   consumer.is_running c = false) ->
        coordinator.reset self
        = (Returned tt,
           {| coordinator.config := coordinator.config self;
              coordinator.producers := coordinator.producers self;
              coordinator.consumers := coordinator.consumers self;
              coordinator.metrics := SystemMetrics.__init__ |})).
Proof.
  intros self. unfold coordinator.reset.
  destruct (existsb producer.is_running (coordinator.producers self))
    eqn:Hp;
    destruct (existsb consumer.is_running (coordinator.consumers self))
      eqn:Hc; simpl.
  1-3: split;
    [split; [reflexivity|intros _];
     first [ left; apply existsb_exists; exact Hp
           | right; apply existsb_exists; exact Hc ]
    | intros HP HC; exfalso;
      first [ apply existsb_exists in Hp; destruct Hp as (p & Hin & Hr);
              rewrite (HP p Hin) in Hr; discriminate
            | apply existsb_exists in Hc; destruct Hc as (c & Hin & Hr);
              rewrite (HC c Hin) in Hr; discriminate ] ].
  split; [|reflexivity].
  split; [|discriminate].
  intros [H | H]; apply existsb_exists in H; congruence.
Qed.

Lemma reset_guards_both_lists_witness :
  let running_c :=
    snd (consumer.start ended_thread
           (consumer.__init__ demo_consumer_config [] 0%nat)) in
  let self :=
    coordinator.__init__ demo_coordinator_config [] [running_c] in
  coordinator.reset self = (Raised CoordinatorError, self).
Proof.
  intros running_c self.
  apply (proj1 (reset_guards_both_lists self)).
  right. exists running_c. split; [left; reflexivity|reflexivity].
Defined.

(** X20. Adding a producer adds its counters to the aggregate: the sums
    that [_collect_metrics] computes after [add_producer] returned are
    those it computes before, plus the new producer's [items_produced]
    and [errors_encountered]; the two sums over the consumers do not
    move. *)
Theorem collect_metrics_after_add :
  forall (self self' : coordinator.Coordinator) (p : producer.Producer),
    coordinator.add_producer p self = (Returned tt, self') ->
    let m := coordinator.metrics (coordinator._collect_metrics self) in
    let m' := coordinator.metrics (coordinator._collect_metrics self') in
    SystemMetrics.items_produced m'
    = SystemMetrics.items_produced m + producer.items_produced p
    /\ SystemMetrics.producer_errors m'
       = SystemMetrics.producer_errors m + producer.errors_encountered p
    /\ SystemMetrics.items_consumed m' = SystemMetrics.items_consumed m
    /\ SystemMetrics.consumer_errors m' = SystemMetrics.consumer_errors m.
Proof.
  intros self self' p. unfold coordinator.add_producer.
  destruct (existsb producer.is_running (coordinator.producers self));
    [discriminate|].
  intros [= <-]. simpl. rewrite !map_app, !sum_app. simpl.
  unfold coordinator.sum at 2 4. simpl. repeat split.
Qed.

Lemma collect_metrics_after_add_witness :
  let p :=
    producer.incr__items_produced
      (producer.__init__ demo_producer_config [1%nat] 0%nat) in
  let self := coordinator.__init__ demo_coordinator_config [p] [] in
  SystemMetrics.items_produced
    (coordinator.metrics
       (coordinator._collect_metrics
          (snd (coordinator.add_producer p self))))
  = 1 + 1.
Proof.
  intros p self.
  apply (collect_metrics_after_add self
           (snd (coordinator.add_producer p self)) p).
  reflexivity.
Defined.

Section CoordinatorStarts.
Import coordinator.
Variable w : World.



End CoordinatorStarts.



(** ** Producer, queue and consumer together *)

Section ThroughTheQueue.
Import custom_queue.
Variable clock : Clock.






End ThroughTheQueue.







(** X24. Spurious wake-ups are harmless.  A thread woken inside [put]
    while the queue is still full does not return and leaves the queue
    as it is: in the loop without timeout it waits again, and in the
    timed loop it waits again under the same deadline or raises
    [QueueFull]; the same holds inside [get] on a queue that is still
    empty, with [QueueEmpty]. *)
Theorem spurious_wakeup_changes_nothing :
  forall (T : Type) (self : custom_queue.ThreadSafeQueue T) (item : T)
         (endtime : option float) (clock : Clock),
    (custom_queue.full self = true ->
     snd (custom_queue.put_resume item endtime clock self) = self
     /\ (fst (custom_queue.put_resume item endtime clock self)
         = custom_queue.Wait custom_queue.not_full endtime
         \/ (endtime <> None
             /\ fst (custom_queue.put_resume item endtime clock self)
                = custom_queue.Raise QueueFull)))
    /\ (custom_queue.empty self = true ->
        snd (custom_queue.get_resume endtime clock self) = self
        /\ (fst (custom_queue.get_resume endtime clock self)
            = custom_queue.Wait custom_queue.not_empty endtime
            \/ (endtime <> None
                /\ fst (custom_queue.get_resume endtime clock self)
                   = custom_queue.Raise QueueEmpty))).
Proof.
  intros T self item endtime clock. split.
  - unfold custom_queue.full. intros H. apply andb_prop in H.
    destruct H as [Hm Hs]. apply Z.ltb_lt in Hm. apply Z.leb_le in Hs.
    unfold custom_queue.put_resume, custom_queue.put_wait_forever,
      custom_queue.put_wait_until.
    destruct (Z.geb_spec (custom_queue._qsize self)
                (custom_queue._maxsize self)); [|lia].
    destruct endtime as [e|]; simpl; [|auto].
    destruct (PrimFloat.leb (PrimFloat.sub e (clock 0%nat)) 0%float);
      simpl; split; auto.
    right. split; [discriminate|reflexivity].
  - unfold custom_queue.empty. intros H.
    unfold custom_queue.get_resume, custom_queue.get_wait_forever,
      custom_queue.get_wait_until. rewrite H.
    destruct endtime as [e|]; simpl; [|auto].
    destruct (PrimFloat.leb (PrimFloat.sub e (clock 0%nat)) 0%float);
      simpl; split; auto.
    right. split; [discriminate|reflexivity].
Qed.

Lemma spurious_wakeup_changes_nothing_witness :
  let q := {| custom_queue._queue := [1%nat];
              custom_queue._maxsize := 1 |} in
  custom_queue.put_resume 2%nat (Some 130%float) (fun _ => 100%float) q
  = (custom_queue.Wait custom_queue.not_full (Some 130%float), q)
  /\ snd (custom_queue.put_resume 2%nat (Some 130%float)
            (fun _ => 100%float) q) = q.
Proof.
  intros q. split; [reflexivity|].
  apply (spurious_wakeup_changes_nothing nat q 2%nat (Some 130%float)
           (fun _ => 100%float)).
  reflexivity.
Defined.
